(** * convert_to_cmake: a shallow embedding of [tools/cmake/convert_to_cmake.py]

    The converter reads a legacy project (a [Makefile] plus
    one [component.mk] per component directory) through [make -rpn], and
    writes one [CMakeLists.txt] per component and one for the project.

    Modelling choices, stated once:
    - text is a [string] of characters with code points below 256;
    - the process state ([World]) is a file system keyed by absolute
      normalised paths (no symbolic links), the environment, the lines
      printed so far and the command lines of the processes spawned so far;
    - Python exceptions are values of [exn]; a computation is a function
      [World -> (exn + A) * World], so the files written before an
      exception stay written;
    - [make] and [glob.glob] are external: the development is parametric in
      them ([Externals]); [os.path] is transcribed from [posixpath.py]. *)

From Stdlib Require Import ZArith Ascii DecimalString.
From stdpp Require Import base strings gmap list.

Local Open Scope string_scope.
Local Open Scope list_scope.

(** ** Python string methods *)

Module PyStr.

(** The one-character string holding a line feed. *)
Definition nl : string := String "010"%char EmptyString.

Definition is_empty (s : string) : bool :=
  match s with EmptyString => true | _ => false end.

(** [s.startswith(p)] *)
Fixpoint startswith (p s : string) : bool :=
  match p, s with
  | EmptyString, _ => true
  | String c p', String d s' => Ascii.eqb c d && startswith p' s'
  | String _ _, EmptyString => false
  end.

(** The last character of [s], if any. *)
Fixpoint last_char (s : string) : option ascii :=
  match s with
  | EmptyString => None
  | String c EmptyString => Some c
  | String _ s' => last_char s'
  end.

(** [s.endswith(c)] for a one-character [c]. *)
Definition endswith_char (c : ascii) (s : string) : bool :=
  match last_char s with
  | Some d => Ascii.eqb c d
  | None => false
  end.

(** [s.split(sep)] for a one-character separator: never the empty list. *)
Fixpoint split (sep : ascii) (s : string) : list string :=
  match s with
  | EmptyString => [EmptyString]
  | String c s' =>
      if Ascii.eqb c sep then EmptyString :: split sep s'
      else match split sep s' with
           | hd :: tl => String c hd :: tl
           | [] => [String c EmptyString]
           end
  end.

(** [sep.join(l)] *)
Definition join (sep : string) (l : list string) : string := String.concat sep l.

(** [c.isspace()] on code points below 256. *)
Definition isspace (c : ascii) : bool :=
  let n := nat_of_ascii c in
  ((9 <=? n)%nat && (n <=? 13)%nat) || ((28 <=? n)%nat && (n <=? 32)%nat)
  || (n =? 133)%nat || (n =? 160)%nat.

Fixpoint lstrip (s : string) : string :=
  match s with
  | EmptyString => EmptyString
  | String c s' => if isspace c then lstrip s' else s
  end.

Fixpoint rstrip (s : string) : string :=
  match s with
  | EmptyString => EmptyString
  | String c s' =>
      match rstrip s' with
      | EmptyString => if isspace c then EmptyString else String c EmptyString
      | r => String c r
      end
  end.

(** [s.strip()]: white space removed at both ends. *)
Definition strip (s : string) : string := rstrip (lstrip s).

(** [s.rstrip(c)] for a one-character [c]. *)
Fixpoint rstrip_char (c : ascii) (s : string) : string :=
  match s with
  | EmptyString => EmptyString
  | String d s' =>
      match rstrip_char c s' with
      | EmptyString => if Ascii.eqb c d then EmptyString else String d EmptyString
      | r => String d r
      end
  end.

Fixpoint rfind_from (c : ascii) (s : string) (i acc : Z) : Z :=
  match s with
  | EmptyString => acc
  | String a s' => rfind_from c s' (i + 1)%Z (if Ascii.eqb a c then i else acc)
  end.

(** [s.rfind(c)]: the last index of [c], or [-1]. *)
Definition rfind (c : ascii) (s : string) : Z := rfind_from c s 0%Z (-1)%Z.

Fixpoint drop (n : nat) (s : string) : string :=
  match n, s with
  | O, _ => s
  | S n', String _ s' => drop n' s'
  | S _, EmptyString => EmptyString
  end.

Fixpoint take (n : nat) (s : string) : string :=
  match n, s with
  | S n', String c s' => String c (take n' s')
  | _, _ => EmptyString
  end.

(** [s[i:]] and [s[:i]] for [0 <= i]. *)
Definition slice_from (i : Z) (s : string) : string := drop (Z.to_nat i) s.
Definition slice_to (i : Z) (s : string) : string := take (Z.to_nat i) s.

(** Is every character of [s] equal to [c]? *)
Fixpoint all_char (c : ascii) (s : string) : bool :=
  match s with
  | EmptyString => true
  | String d s' => Ascii.eqb c d && all_char c s'
  end.

(** [c in s] for a one-character [c]. *)
Fixpoint mem_char (c : ascii) (s : string) : bool :=
  match s with
  | EmptyString => false
  | String d s' => Ascii.eqb c d || mem_char c s'
  end.

(** [s.endswith(suffix)] *)
Definition endswith (suffix s : string) : bool :=
  (String.length suffix <=? String.length s)%nat
  && bool_decide (drop (String.length s - String.length suffix) s = suffix).

(** ["%d" % n] *)
Definition of_Z (n : Z) : string := NilZero.string_of_int (Z.to_int n).

End PyStr.

(** ** [os.path] on POSIX, after [posixpath.py] *)

Module posixpath.

Definition isabs (s : string) : bool := PyStr.startswith "/" s.

(** One round of the loop of [join(a, *p)]. *)
Definition join_step (path b : string) : string :=
  if PyStr.startswith "/" b then b
  else if PyStr.is_empty path || PyStr.endswith_char "/" path then path +:+ b
  else path +:+ "/" +:+ b.

Definition join (a : string) (p : list string) : string := fold_left join_step p a.

Definition split (p : string) : string * string :=
  let i := (PyStr.rfind "/" p + 1)%Z in
  let head := PyStr.slice_to i p in
  let tail := PyStr.slice_from i p in
  let head :=
    if negb (PyStr.is_empty head) && negb (PyStr.all_char "/" head)
    then PyStr.rstrip_char "/" head else head in
  (head, tail).

Definition basename (p : string) : string :=
  PyStr.slice_from (PyStr.rfind "/" p + 1)%Z p.

Definition dirname (p : string) : string := fst (split p).

(** [splitext]: the extension starts at the last dot of the last
    component, leading dots of that component not counted. *)
Definition splitext (p : string) : string * string :=
  let sepIndex := PyStr.rfind "/" p in
  let dotIndex := PyStr.rfind "." p in
  if (sepIndex <? dotIndex)%Z then
    let filename := PyStr.slice_to (dotIndex - (sepIndex + 1))%Z
                      (PyStr.slice_from (sepIndex + 1)%Z p) in
    if PyStr.all_char "." filename then (p, EmptyString)
    else (PyStr.slice_to dotIndex p, PyStr.slice_from dotIndex p)
  else (p, EmptyString).

(** The body of the loop of [normpath] over the components. *)
Definition normpath_step (initial_slashes : nat) (new_comps : list string)
    (comp : string) : list string :=
  if bool_decide (comp = EmptyString) || bool_decide (comp = ".") then new_comps
  else if negb (bool_decide (comp = ".."))
          || (bool_decide (initial_slashes = 0%nat) && bool_decide (new_comps = []))
          || bool_decide (last new_comps = Some "..")
  then new_comps ++ [comp]
  else removelast new_comps.

Definition normpath (path : string) : string :=
  if PyStr.is_empty path then "." else
  let initial_slashes : nat :=
    if PyStr.startswith "/" path then
      if PyStr.startswith "//" path && negb (PyStr.startswith "///" path)
      then 2%nat else 1%nat
    else 0%nat in
  let comps := fold_left (normpath_step initial_slashes) (PyStr.split "/" path) [] in
  let path := PyStr.join "/" comps in
  let path := String.concat EmptyString (replicate initial_slashes "/") +:+ path in
  if PyStr.is_empty path then "." else path.

(** [abspath], with the working directory made explicit. *)
Definition abspath (cwd path : string) : string :=
  normpath (if isabs path then path else join cwd [path]).

Fixpoint common_prefix_len (a b : list string) : nat :=
  match a, b with
  | x :: a', y :: b' => if bool_decide (x = y) then S (common_prefix_len a' b') else 0%nat
  | _, _ => 0%nat
  end.

Definition nonempty_comps (p : string) : list string :=
  filter (fun x => x ≠ EmptyString) (PyStr.split "/" p).

(** [relpath(path, start)]; [None] is its [ValueError] on an empty path. *)
Definition relpath (cwd path start : string) : option string :=
  if PyStr.is_empty path then None else
  let start_list := nonempty_comps (abspath cwd start) in
  let path_list := nonempty_comps (abspath cwd path) in
  let i := common_prefix_len start_list path_list in
  let rel_list := replicate (length start_list - i) ".." ++ drop i path_list in
  match rel_list with
  | [] => Some "."
  | a :: p => Some (join a p)
  end.

End posixpath.

(** ** The process state *)

(** The file system: regular files with their contents and directories,
    both keyed by absolute normalised path. *)
Record FS := mkFS {
  cwd : string;
  files : gmap string string;
  dirs : gset string
}.

Record World := mkWorld {
  fs : FS;
  environ : gmap string string;   (* os.environ *)
  debug : bool;                   (* the module's global [debug] *)
  stdout : list string;           (* one entry per [print] *)
  spawned : list (list string)    (* one command line per [subprocess.Popen] *)
}.

Inductive exn :=
| RuntimeError (msg : string)
| KeyError (key : string)
| NameError (name : string)
| ValueError (msg : string)
| IOError (path : string).

(** What the converter does not implement itself: the [make] it spawns
    (exit status, standard output, standard error) and [glob.glob]. *)
Class Externals := {
  make : FS -> list string -> Z * string * string;
  glob_glob : FS -> string -> list string
}.

Definition is_dir (f : FS) (k : string) : bool :=
  bool_decide (k = "/") || bool_decide (k ∈ dirs f).

Definition is_file (f : FS) (k : string) : bool :=
  bool_decide (is_Some (files f !! k)).

(** [os.path.exists(p)] *)
Definition fs_exists (f : FS) (p : string) : bool :=
  if PyStr.is_empty p then false
  else let k := posixpath.abspath (cwd f) p in is_file f k || is_dir f k.

(** Can [open(p, "w")] create or truncate [p]? *)
Definition fs_writable (f : FS) (p : string) : bool :=
  let k := posixpath.abspath (cwd f) p in
  negb (PyStr.is_empty p) && negb (is_dir f k) && is_dir f (posixpath.dirname k).

Definition fs_write (f : FS) (p content : string) : FS :=
  mkFS (cwd f) (<[posixpath.abspath (cwd f) p := content]> (files f)) (dirs f).

(** The contents of the file that [p] names, if it names one. *)
Definition fs_read (f : FS) (p : string) : option string :=
  files f !! posixpath.abspath (cwd f) p.

Definition M (A : Type) : Type := World -> (exn + A) * World.

Definition ret {A} (a : A) : M A := fun w => (inr a, w).

Definition bind {A B} (m : M A) (k : A -> M B) : M B :=
  fun w => match m w with
           | (inl e, w') => (inl e, w')
           | (inr a, w') => k a w'
           end.

Definition raise {A} (e : exn) : M A := fun w => (inl e, w).

Definition gets {A} (f : World -> A) : M A := fun w => (inr (f w), w).

Notation "'let!' x ':=' m 'in' k" := (bind m (fun x => k))
  (at level 10, x pattern, m at level 100, k at level 200).
Notation "m >> k" := (bind m (fun _ => k))
  (at level 100, k at level 200, right associativity).

Definition print (s : string) : M unit :=
  fun w => (inr tt, mkWorld (fs w) (environ w) (debug w) (stdout w ++ [s]) (spawned w)).

Definition when_debug (m : M unit) : M unit :=
  let! d := gets debug in if d then m else ret tt.

Definition os_path_exists (p : string) : M bool :=
  gets (fun w => fs_exists (fs w) p).

(** [with open(p, "w") as f: f.write(c1); ...; f.write(cn)], the written
    strings being computed beforehand. *)
Definition open_w (p : string) (chunks : list string) : M unit :=
  fun w =>
    if fs_writable (fs w) p
    then (inr tt, mkWorld (fs_write (fs w) p (String.concat EmptyString chunks))
                          (environ w) (debug w) (stdout w) (spawned w))
    else (inl (IOError p), w).

(** [d[k]] *)
Definition dict_index (d : gmap string string) (k : string) : M string :=
  match d !! k with
  | Some v => ret v
  | None => raise (KeyError k)
  end.

(** [for x in l: f(x)] *)
Fixpoint for_each {A} (f : A -> M unit) (l : list A) : M unit :=
  match l with
  | [] => ret tt
  | x :: l' => f x >> for_each f l'
  end.

(** [[f(x) for x in l]] where [f] may raise. *)
Fixpoint map_M {A B} (f : A -> M B) (l : list A) : M (list B) :=
  match l with
  | [] => ret []
  | x :: l' => let! y := f x in let! ys := map_M f l' in ret (y :: ys)
  end.

(** ** [get_make_variables] *)

(** [re.match(r"(?P<var>[^ ]+) :?= (?P<val>.+)", line)] *)

(** The longest prefix without a space, and the rest: what [[^ ]+] takes. *)
Fixpoint span_nonspace (s : string) : string * string :=
  match s with
  | EmptyString => (EmptyString, EmptyString)
  | String c s' =>
      if Ascii.eqb c " " then (EmptyString, s)
      else let '(a, b) := span_nonspace s' in (String c a, b)
  end.

(** The longest prefix without a line feed: what [.+] takes. *)
Fixpoint upto_newline (s : string) : string :=
  match s with
  | EmptyString => EmptyString
  | String c s' => if Ascii.eqb c "010" then EmptyString else String c (upto_newline s')
  end.

(** After the name: [" :?= "], the colon being tried first. *)
Definition after_assign (rest : string) : option string :=
  if PyStr.startswith " := " rest then Some (PyStr.drop 4 rest)
  else if PyStr.startswith " = " rest then Some (PyStr.drop 3 rest)
  else None.

Definition re_match_assignment (line : string) : option (string * string) :=
  let '(var, rest) := span_nonspace line in
  if PyStr.is_empty var then None else
  match after_assign rest with
  | Some r =>
      let val := upto_newline r in
      if PyStr.is_empty val then None else Some (var, val)
  | None => None
  end.

Definition BUILT_IN_VARS : gset string :=
  list_to_set ["MAKEFILE_LIST"; "SHELL"; "CURDIR"; "MAKEFLAGS"].

(** The body of the loop over the lines; the state is
    [(next_is_makefile, result)]. *)
Definition parse_line (st : bool * gmap string string) (line : string)
    : bool * gmap string string :=
  let '(next_is_makefile, result) := st in
  if PyStr.startswith "# makefile" line then (true, result)
  else if next_is_makefile then
    match re_match_assignment line with
    | Some (var, val) =>
        if bool_decide (var ∈ BUILT_IN_VARS) then (false, result)
        else (false, <[var := PyStr.strip val]> result)
    | None => (false, result)
    end
  else (next_is_makefile, result).

Definition parse_make_output (output : string) : gmap string string :=
  snd (fold_left parse_line (PyStr.split "010" output) (false, ∅)).

Section Converter.

Context {ext : Externals}.

(** [subprocess.Popen(cmdline, ...)] followed by [p.communicate]. *)
Definition popen (cmdline : list string) : M (Z * string * string) :=
  fun w => (inr (make (fs w) cmdline),
            mkWorld (fs w) (environ w) (debug w) (stdout w) (spawned w ++ [cmdline])).

Definition make_cmdline (path makefile : string) (variables : list (string * string))
    : list string :=
  let variable_setters := map (fun kv => fst kv +:+ "=" +:+ snd kv) variables in
  ["make"; "-rpn"; "-C"; path; "-f"; makefile] ++ variable_setters.

Definition get_make_variables (path makefile : string) (expected_failure : bool)
    (variables : list (string * string)) : M (gmap string string) :=
  let cmdline := make_cmdline path makefile variables in
  when_debug (print ("Running " +:+ PyStr.join " " cmdline +:+ "...")) >>
  let! p := popen cmdline in
  let '(returncode, output, stderr) := p in
  if negb expected_failure && negb (returncode =? 0)%Z then
    raise (RuntimeError ("Unexpected make failure, result " +:+ PyStr.of_Z returncode))
  else
    when_debug (print "Make stdout:" >> print output >>
                print "Make stderr:" >> print stderr) >>
    ret (parse_make_output output).

(** ** [get_component_variables] *)

(** The loop [for ext in ["c", "cpp", "S"]] of [find_src], [obj] being the
    stem already. *)
Fixpoint find_src_loop (component_path obj : string) (exts : list string)
    : M (option string) :=
  match exts with
  | [] =>
      print ("WARNING: Can't find source file for component " +:+ component_path
             +:+ " COMPONENT_OBJS " +:+ obj) >>
      ret None
  | ext :: exts' =>
      let! e := os_path_exists (posixpath.join component_path [obj] +:+ "." +:+ ext) in
      if e then ret (Some (obj +:+ "." +:+ ext))
      else find_src_loop component_path obj exts'
  end.

Definition find_src (component_path obj : string) : M (option string) :=
  let obj := fst (posixpath.splitext obj) in
  find_src_loop component_path obj ["c"; "cpp"; "S"].

(** [for obj in objs: src = find_src(obj); if src is not None: srcs.append(src)] *)
Fixpoint collect_srcs (component_path : string) (objs : list string) : M (list string) :=
  match objs with
  | [] => ret []
  | obj :: objs' =>
      let! src := find_src component_path obj in
      let! srcs := collect_srcs component_path objs' in
      ret (match src with Some s => s :: srcs | None => srcs end)
  end.

(** The dictionary literal passed as [variables], in the order written. *)
Definition wrapper_variables (project_path component_path : string)
    : list (string * string) :=
  [ ("COMPONENT_MAKEFILE", posixpath.join component_path ["component.mk"]);
    ("COMPONENT_NAME", posixpath.basename component_path);
    ("PROJECT_PATH", project_path) ].

Definition get_component_variables (project_path component_path : string)
    : M (gmap string string) :=
  let! env := gets environ in
  let! idf_path := dict_index env "IDF_PATH" in
  let! make_vars :=
    get_make_variables component_path
      (posixpath.join idf_path ["make"; "component_wrapper.mk"])
      true (wrapper_variables project_path component_path) in
  let! make_vars :=
    match make_vars !! "COMPONENT_OBJS" with
    | Some objs =>
        let! srcs := collect_srcs component_path (PyStr.split " " objs) in
        ret (<["COMPONENT_SRCS" := PyStr.join " " srcs]> make_vars)
    | None =>
        ret (<["COMPONENT_SRCDIRS" := default "." (make_vars !! "COMPONENT_SRCDIRS")]>
               make_vars)
    end in
  ret (<["COMPONENT_ADD_INCLUDEDIRS" :=
           default "include" (make_vars !! "COMPONENT_ADD_INCLUDEDIRS")]> make_vars).

(** ** [convert_component] *)

(** The two globs of one source directory. *)
Definition glob_srcdir (f : FS) (component_path d : string) : list string :=
  glob_glob f (posixpath.normpath (posixpath.join component_path [d; "*.[cS]"]))
  ++ glob_glob f (posixpath.normpath (posixpath.join component_path [d; "*.cpp"])).

(** [component_allsrcs] after the loop over [COMPONENT_SRCDIRS]. *)
Definition component_allsrcs (f : FS) (component_path : string)
    (v : gmap string string) : list string :=
  flat_map (glob_srcdir f component_path)
           (PyStr.split " " (default EmptyString (v !! "COMPONENT_SRCDIRS"))).

Definition abs_component_srcs (component_path component_srcs : string) : list string :=
  map (fun p => posixpath.normpath (posixpath.join component_path [p]))
      (PyStr.split " " component_srcs).

(** [set(component_allsrcs) == set(abs_component_srcs)] *)
Definition same_sources (f : FS) (component_path : string) (v : gmap string string)
    (component_srcs : string) : bool :=
  bool_decide ((list_to_set (component_allsrcs f component_path v) : gset string)
               = list_to_set (abs_component_srcs component_path component_srcs)).

(** The value of [component_srcdirs] when the file is written. *)
Definition choose_srcdirs (f : FS) (component_path : string) (v : gmap string string)
    : option string :=
  match v !! "COMPONENT_SRCS" with
  | Some component_srcs =>
      if same_sources f component_path v component_srcs
      then v !! "COMPONENT_SRCDIRS" else None
  | None => None
  end.

(** The three shapes of a component's [CMakeLists.txt], named after what
    the [if]/[elif]/[else] of the writer tests. *)
Inductive EmissionForm :=
| BySourceDirs (component_srcdirs : string)
| BySourceFiles (component_srcs : string)
| ConfigOnly.

Definition emission_form (component_srcdirs component_srcs : option string)
    : EmissionForm :=
  match component_srcdirs, component_srcs with
  | Some d, _ => BySourceDirs d
  | None, Some s => BySourceFiles s
  | None, None => ConfigOnly
  end.

Definition classify (f : FS) (component_path : string) (v : gmap string string)
    : EmissionForm :=
  emission_form (choose_srcdirs f component_path v) (v !! "COMPONENT_SRCS").

Definition include_chunk (component_add_includedirs : string) : string :=
  "set(COMPONENT_ADD_INCLUDEDIRS " +:+ component_add_includedirs +:+ ")"
  +:+ PyStr.nl +:+ PyStr.nl.

Definition srcdirs_chunk (component_srcdirs : string) : string :=
  "set(COMPONENT_SRCDIRS " +:+ component_srcdirs +:+ ")" +:+ PyStr.nl +:+ PyStr.nl.

Definition srcs_chunk (component_srcs : string) : string :=
  "set(COMPONENT_SRCS " +:+ component_srcs +:+ ")" +:+ PyStr.nl +:+ PyStr.nl.

Definition register_chunk : string := "register_component()" +:+ PyStr.nl.

Definition config_only_chunk : string := "register_config_only_component()" +:+ PyStr.nl.

Definition form_chunks (form : EmissionForm) : list string :=
  match form with
  | BySourceDirs d => [srcdirs_chunk d; register_chunk]
  | BySourceFiles s => [srcs_chunk s; register_chunk]
  | ConfigOnly => [config_only_chunk]
  end.

Definition cflags_chunks (cflags : option string) : list string :=
  match cflags with
  | Some c => ["component_compile_options(" +:+ c +:+ ")" +:+ PyStr.nl]
  | None => []
  end.

(** Every [f.write] of the component writer, in order. *)
Definition component_chunks (component_add_includedirs : string)
    (form : EmissionForm) (cflags : option string) : list string :=
  include_chunk component_add_includedirs :: form_chunks form ++ cflags_chunks cflags.

Definition convert_component (project_path component_path : string) : M unit :=
  when_debug (print ("Converting " +:+ component_path +:+ "...")) >>
  let cmakelists_path := posixpath.join component_path ["CMakeLists.txt"] in
  let! e := os_path_exists cmakelists_path in
  if e then
    print ("Skipping already-converted component " +:+ cmakelists_path +:+ "...")
  else
    let! v := get_component_variables project_path component_path in
    let! f := gets fs in
    let form := classify f component_path v in
    let! component_add_includedirs := dict_index v "COMPONENT_ADD_INCLUDEDIRS" in
    let cflags := v !! "CFLAGS" in
    open_w cmakelists_path (component_chunks component_add_includedirs form cflags) >>
    print ("Converted " +:+ cmakelists_path).

(** ** [convert_project] *)

Definition project_preamble : string :=
  PyStr.nl +:+
  "# (Automatically converted from project Makefile by convert_to_cmake.py.)" +:+ PyStr.nl +:+
  PyStr.nl +:+
  "# The following four lines of boilerplate have to be in your project's CMakeLists" +:+ PyStr.nl +:+
  "# in this exact order for cmake to work correctly" +:+ PyStr.nl +:+
  "cmake_minimum_required(VERSION 3.5)" +:+ PyStr.nl +:+
  PyStr.nl.

Definition project_include : string :=
  PyStr.nl +:+ "include($ENV{IDF_PATH}/tools/cmake/project.cmake)" +:+ PyStr.nl.

(** Every [f.write] of the project writer, in order. *)
Definition project_chunks (main_srcs : list string) (project_name : string) : list string :=
  [ project_preamble;
    "set(MAIN_SRCS " +:+ PyStr.join " " main_srcs +:+ ")" +:+ PyStr.nl;
    project_include;
    "project(" +:+ project_name +:+ ")" +:+ PyStr.nl ].

Definition is_main (p : string) : bool :=
  bool_decide (posixpath.basename p = "main").

(** The [try]/[except IndexError] block: [main_component_path] is bound
    only when the list comprehension has a first element. *)
Definition find_main (project_path : string) (component_paths : list string)
    : M (option string * gmap string string) :=
  match filter (fun p => is_main p = true) component_paths with
  | main_component_path :: _ =>
      when_debug (print ("Found main component " +:+ main_component_path)) >>
      let! main_vars := get_component_variables project_path main_component_path in
      ret (Some main_component_path, main_vars)
  | [] =>
      print "WARNING: Project has no 'main' component, but CMake-based system requires at least one file in MAIN_SRCS..." >>
      ret (None, {[ "COMPONENT_SRCS" := EmptyString ]})
  end.

(** [[os.path.normpath(os.path.join(main_component_path, m)) for m in main_srcs]]:
    the body reads [main_component_path] once per element. *)
Definition main_srcs_abs (main_component_path : option string) (main_srcs : list string)
    : M (list string) :=
  map_M (fun m =>
           match main_component_path with
           | Some mp => ret (posixpath.normpath (posixpath.join mp [m]))
           | None => raise (NameError "main_component_path")
           end) main_srcs.

(** [[os.path.relpath(m, project_path) for m in main_srcs]] *)
Definition main_srcs_rel (project_path : string) (main_srcs : list string)
    : M (list string) :=
  map_M (fun m =>
           let! c := gets (fun w => cwd (fs w)) in
           match posixpath.relpath c m project_path with
           | Some r => ret r
           | None => raise (ValueError "no path specified")
           end) main_srcs.

Definition convert_project (project_path : string) : M unit :=
  let! e := os_path_exists project_path in
  if negb e then
    raise (RuntimeError ("Project directory '" +:+ project_path +:+ "' not found"))
  else
  let! e := os_path_exists (posixpath.join project_path ["Makefile"]) in
  if negb e then
    raise (RuntimeError ("Directory '" +:+ project_path
                         +:+ "' doesn't contain a project Makefile"))
  else
  let project_cmakelists := posixpath.join project_path ["CMakeLists.txt"] in
  let! e := os_path_exists project_cmakelists in
  if e then raise (RuntimeError "This project already has a CMakeLists.txt file")
  else
  let! project_vars := get_make_variables project_path "Makefile" true [] in
  if negb (bool_decide (is_Some (project_vars !! "PROJECT_NAME"))) then
    raise (RuntimeError
             ("PROJECT_NAME does not appear to be defined in IDF project Makefile at "
              +:+ project_path))
  else
  let! component_paths := dict_index project_vars "COMPONENT_PATHS" in
  let component_paths := PyStr.split " " component_paths in
  let! mainc := find_main project_path component_paths in
  let '(main_component_path, main_vars) := mainc in
  let component_paths := filter (fun p => is_main p = false) component_paths in
  for_each (convert_component project_path) component_paths >>
  let! main_srcs := dict_index main_vars "COMPONENT_SRCS" in
  let main_srcs := PyStr.split " " main_srcs in
  let! main_srcs := main_srcs_abs main_component_path main_srcs in
  let! main_srcs := main_srcs_rel project_path main_srcs in
  let! project_name := dict_index project_vars "PROJECT_NAME" in
  open_w project_cmakelists (project_chunks main_srcs project_name) >>
  print ("Converted project " +:+ project_cmakelists).

(** ** [main] *)

(** [debug = args.debug] *)
Definition set_debug (d : bool) : M unit :=
  fun w => (inr tt, mkWorld (fs w) (environ w) d (stdout w) (spawned w)).

(** [main] once [argparse] has read the command line: [args_debug] is the
    flag [--debug], [args_project] the optional positional argument, whose
    default is [os.getcwd()]. *)
Definition main (args_debug : bool) (args_project : option string) : M unit :=
  let! c := gets (fun w => cwd (fs w)) in
  let project := default c args_project in
  set_debug args_debug >>
  print ("Converting " +:+ project +:+ "...") >>
  convert_project project.

End Converter.

(** ** Test doubles

    A [make] that answers from a table indexed by the directory given to
    [-C], and a [glob.glob] for the patterns the converter builds: a
    directory without wildcard characters followed by [*.[cS]] or [*.cpp]. *)

Module Fake.

Definition table_make (table : list (string * (Z * string)))
    (f : FS) (cmdline : list string) : Z * string * string :=
  match cmdline with
  | _ :: _ :: _ :: path :: _ =>
      match list_find (fun e => fst e = path) table with
      | Some (_, (_, (rc, out))) => (rc, out, EmptyString)
      | None => (2%Z, EmptyString, "make: *** No rule to make target")
      end
  | _ => (2%Z, EmptyString, EmptyString)
  end.

(** [fnmatch] for the two patterns in use. *)
Definition fnmatch (name pat : string) : bool :=
  if bool_decide (pat = "*.[cS]") then PyStr.endswith ".c" name || PyStr.endswith ".S" name
  else if bool_decide (pat = "*.cpp") then PyStr.endswith ".cpp" name
  else false.

(** The entries of directory [d], from the keys of the file system. *)
Definition listdir (f : FS) (d : string) : list string :=
  omap (fun k => if bool_decide (posixpath.dirname k = d)
                 then Some (posixpath.basename k) else None)
       (elements (dom (files f)) ++ elements (dirs f)).

Definition glob1 (f : FS) (dirname pattern : string) : list string :=
  let names := listdir f (posixpath.abspath (cwd f) dirname) in
  let names := List.filter (fun x => negb (PyStr.startswith "." x)) names in
  List.filter (fun x => fnmatch x pattern) names.

Definition dir_glob (f : FS) (pathname : string) : list string :=
  let '(dirname, basename) := posixpath.split pathname in
  if PyStr.is_empty dirname then glob1 f "." basename
  else map (fun name => posixpath.join dirname [name]) (glob1 f dirname basename).

Definition externals (table : list (string * (Z * string))) : Externals :=
  {| make := table_make table; glob_glob := dir_glob |}.

Definition file_system (files : list (string * string)) (dirs : list string) : FS :=
  mkFS "/proj" (list_to_map files) (list_to_set dirs).

Definition world (f : FS) (dbg : bool) : World :=
  mkWorld f {[ "IDF_PATH" := "/idf" ]} dbg [] [].

(** The project of the scenario: [main], [compA], [compB]. *)
Definition demo_table : list (string * (Z * string)) :=
  [ (".", (2%Z,
       "# makefile (from 'Makefile', line 1)" +:+ PyStr.nl +:+
       "PROJECT_NAME := demo" +:+ PyStr.nl +:+
       "# makefile (from 'project.mk', line 9)" +:+ PyStr.nl +:+
       "COMPONENT_PATHS := main compA compB" +:+ PyStr.nl +:+
       "# makefile" +:+ PyStr.nl +:+
       "MAKEFLAGS = rpn" +:+ PyStr.nl));
    ("main", (0%Z,
       "# makefile" +:+ PyStr.nl +:+ "COMPONENT_SRCDIRS := ." +:+ PyStr.nl +:+
       "# makefile" +:+ PyStr.nl +:+ "COMPONENT_SRCS = main.c" +:+ PyStr.nl));
    ("compA", (0%Z,
       "# makefile" +:+ PyStr.nl +:+ "COMPONENT_SRCDIRS := ." +:+ PyStr.nl +:+
       "# makefile" +:+ PyStr.nl +:+ "COMPONENT_OBJS := a.o gone.o b.o" +:+ PyStr.nl +:+
       "# makefile" +:+ PyStr.nl +:+ "CFLAGS := -Wall" +:+ PyStr.nl));
    ("compB", (0%Z, "# environment" +:+ PyStr.nl +:+ "COMPONENT_SRCS := zz.c" +:+ PyStr.nl));
    ("compC", (0%Z,
       "# makefile" +:+ PyStr.nl +:+ "COMPONENT_SRCDIRS := ." +:+ PyStr.nl +:+
       "# makefile" +:+ PyStr.nl +:+ "COMPONENT_SRCS := c1.c" +:+ PyStr.nl));
    ("compD", (0%Z,
       "# makefile" +:+ PyStr.nl +:+ "COMPONENT_OBJS := d.o" +:+ PyStr.nl)) ].

Definition demo_fs : FS :=
  file_system
    [ ("/proj/Makefile", "PROJECT_NAME := demo");
      ("/proj/main/main.c", "int main;");
      ("/proj/compA/a.c", "int a;");
      ("/proj/compA/b.cpp", "int b;");
      ("/proj/compC/c1.c", "int c1;");
      ("/proj/compC/c2.c", "int c2;");
      ("/proj/compD/d.c", "int d;") ]
    [ "/proj"; "/proj/main"; "/proj/compA"; "/proj/compB"; "/proj/compC"; "/proj/compD" ].

Definition demo : World := world demo_fs false.

(** The variables [get_component_variables] resolves for a component of
    the project. *)
Definition demo_vars (component_path : string) : gmap string string :=
  match fst (get_component_variables (ext := externals demo_table)
               "." component_path demo) with
  | inr v => v
  | inl _ => ∅
  end.

(** The project after a first conversion of [compA] and of the project. *)
Definition converted : World :=
  world
    (file_system
       [ ("/proj/Makefile", "PROJECT_NAME := demo");
         ("/proj/CMakeLists.txt", "project(demo)");
         ("/proj/main/main.c", "int main;");
         ("/proj/compA/a.c", "int a;");
         ("/proj/compA/CMakeLists.txt", "register_component()") ]
       [ "/proj"; "/proj/main"; "/proj/compA"; "/proj/compB" ])
    true.

(** A component whose source directories are written with two spaces
    between them, and that has one source outside them, at its top. *)
Definition spaced_table : list (string * (Z * string)) :=
  [ ("compE", (0%Z,
       "# makefile" +:+ PyStr.nl +:+ "COMPONENT_SRCDIRS := src  lib" +:+ PyStr.nl +:+
       "# makefile" +:+ PyStr.nl +:+ "COMPONENT_SRCS := top.c src/a.c lib/b.c")) ].

Definition spaced : World :=
  world
    (file_system
       [ ("/proj/compE/top.c", "int top;");
         ("/proj/compE/src/a.c", "int a;");
         ("/proj/compE/lib/b.c", "int b;") ]
       [ "/proj"; "/proj/compE"; "/proj/compE/src"; "/proj/compE/lib" ])
    false.

Definition spaced_vars : gmap string string :=
  match fst (get_component_variables (ext := externals spaced_table)
               "." "compE" spaced) with
  | inr v => v
  | inl _ => ∅
  end.

(** A project whose [main] component names one object file, [m.o], that
    has no source on disk. *)
Definition nosrc_table : list (string * (Z * string)) :=
  [ (".", (0%Z,
       "# makefile" +:+ PyStr.nl +:+ "PROJECT_NAME := demo" +:+ PyStr.nl +:+
       "# makefile" +:+ PyStr.nl +:+ "COMPONENT_PATHS := main"));
    ("main", (0%Z, "# makefile" +:+ PyStr.nl +:+ "COMPONENT_OBJS := m.o")) ].

Definition nosrc : World :=
  world (file_system [ ("/proj/Makefile", "PROJECT_NAME := demo") ]
                     [ "/proj"; "/proj/main" ])
        false.

Definition nosrc_main_vars : gmap string string :=
  match fst (get_component_variables (ext := externals nosrc_table)
               "." "main" nosrc) with
  | inr v => v
  | inl _ => ∅
  end.

(** The same project without a [main] component. *)
Definition nomain_table : list (string * (Z * string)) :=
  [ (".", (2%Z,
       "# makefile" +:+ PyStr.nl +:+ "PROJECT_NAME := demo" +:+ PyStr.nl +:+
       "# makefile" +:+ PyStr.nl +:+ "COMPONENT_PATHS := compB" +:+ PyStr.nl)) ].

End Fake.

(** ** Vocabulary of the statements *)

Section Vocabulary.

Context {ext : Externals}.

(** What [make] prints for a command line, on standard output. *)
Definition make_stdout (f : FS) (cmdline : list string) : string :=
  snd (fst (make f cmdline)).

Definition make_returncode (f : FS) (cmdline : list string) : Z :=
  fst (fst (make f cmdline)).

(** The command line of [get_component_variables]. *)
Definition wrapper_cmdline (idf_path project_path component_path : string) : list string :=
  make_cmdline component_path
    (posixpath.join idf_path ["make"; "component_wrapper.mk"])
    (wrapper_variables project_path component_path).

(** The variables as [make] printed them for a component, before
    [get_component_variables] adds the derived ones. *)
Definition raw_component_vars (f : FS) (idf_path project_path component_path : string)
    : gmap string string :=
  parse_make_output (make_stdout f (wrapper_cmdline idf_path project_path component_path)).

(** The lines [get_make_variables] prints when [debug] is set. *)
Definition make_debug_lines (dbg : bool) (f : FS) (cmdline : list string) : list string :=
  if dbg then
    [ "Running " +:+ PyStr.join " " cmdline +:+ "..."; "Make stdout:";
      make_stdout f cmdline; "Make stderr:"; snd (make f cmdline) ]
  else [].

(** The source file of an object file, spelled out: [c] first, then [cpp],
    then [S]. *)
Definition pick_src (f : FS) (component_path obj : string) : option string :=
  let stem := fst (posixpath.splitext obj) in
  let probe ext := fs_exists f (posixpath.join component_path [stem] +:+ "." +:+ ext) in
  if probe "c" then Some (stem +:+ ".c")
  else if probe "cpp" then Some (stem +:+ ".cpp")
  else if probe "S" then Some (stem +:+ ".S")
  else None.

Definition missing_src_warning (component_path obj : string) : string :=
  "WARNING: Can't find source file for component " +:+ component_path
  +:+ " COMPONENT_OBJS " +:+ fst (posixpath.splitext obj).

(** One warning per object file without a source, in the order of the list. *)
Definition missing_src_warnings (f : FS) (component_path : string) (objs : list string)
    : list string :=
  omap (fun obj => match pick_src f component_path obj with
                   | Some _ => None
                   | None => Some (missing_src_warning component_path obj)
                   end) objs.

(** Lines 69 to 88 of [get_component_variables] as a function of what
    [make] printed: the derived [COMPONENT_SRCS] or the defaulted
    [COMPONENT_SRCDIRS], then the defaulted [COMPONENT_ADD_INCLUDEDIRS]. *)
Definition derived_component_vars (f : FS) (component_path : string)
    (raw : gmap string string) : gmap string string :=
  let make_vars :=
    match raw !! "COMPONENT_OBJS" with
    | Some objs =>
        <["COMPONENT_SRCS" :=
            PyStr.join " " (omap (pick_src f component_path) (PyStr.split " " objs))]> raw
    | None => <["COMPONENT_SRCDIRS" := default "." (raw !! "COMPONENT_SRCDIRS")]> raw
    end in
  <["COMPONENT_ADD_INCLUDEDIRS" :=
      default "include" (make_vars !! "COMPONENT_ADD_INCLUDEDIRS")]> make_vars.

(** An entry source, from relative to the [main] component to relative
    to the project directory. *)
Definition entry_source (cwd project_path main_component_path m : string)
    : option string :=
  posixpath.relpath cwd
    (posixpath.normpath (posixpath.join main_component_path [m])) project_path.

(** What [make] printed for the project. *)
Definition raw_project_vars (f : FS) (project_path : string) : gmap string string :=
  parse_make_output (make_stdout f (make_cmdline project_path "Makefile" [])).

(** The path of a component's target descriptor. *)
Definition cmakelists_of (dir : string) : string :=
  posixpath.join dir ["CMakeLists.txt"].

(** *** The two sets of the classifier, as the spec words them *)

(** The names of a list separated by spaces: the entries of [split(" ")]
    that are not empty. *)
Definition names (s : string) : list string :=
  List.filter (fun x => negb (PyStr.is_empty x)) (PyStr.split " " s).

(** Is no entry of [split(" ")] empty: is the list not empty, with single
    spaces between its names and none at its ends? *)
Definition no_empty_name (s : string) : bool :=
  forallb (fun x => negb (PyStr.is_empty x)) (PyStr.split " " s).

(** The files matching the recognised extensions across every declared
    source directory, [.] when none is declared. *)
Definition globbed_sources (f : FS) (component_path : string)
    (component_srcdirs : option string) : gset string :=
  list_to_set (flat_map (glob_srcdir f component_path)
                        (names (default "." component_srcdirs))).

(** The explicit sources, each joined to the component path and
    normalised. *)
Definition explicit_sources (component_path component_srcs : string) : gset string :=
  list_to_set (map (fun p => posixpath.normpath (posixpath.join component_path [p]))
                   (names component_srcs)).


End Vocabulary.

(** Is a written string a source-files / a source-directories declaration? *)
Definition is_srcs_decl (chunk : string) : bool :=
  PyStr.startswith "set(COMPONENT_SRCS " chunk.

Definition is_srcdirs_decl (chunk : string) : bool :=
  PyStr.startswith "set(COMPONENT_SRCDIRS " chunk.

(** Is a written string a declaration that lists components? *)
Definition is_component_list_decl (chunk : string) : bool :=
  PyStr.startswith "set(COMPONENTS " chunk
  || PyStr.startswith "set(COMPONENT_DIRS " chunk
  || PyStr.startswith "set(EXTRA_COMPONENT_DIRS " chunk.

(** [name] got its value from a line [name := val] or [name = val] that
    comes right after a marker line, [trim] being what is done to [val]. *)
Definition captured_after_marker (trim : string -> string) (lines : list string)
    (name value : string) : Prop :=
  ∃ (i : nat) (marker val : string),
    lines !! i = Some marker
    ∧ PyStr.startswith "# makefile" marker = true
    ∧ (lines !! S i = Some (name +:+ " := " +:+ val)
       ∨ lines !! S i = Some (name +:+ " = " +:+ val))
    ∧ value = trim val.

(** The parsing policy of the resolver, for a given trimming of values. *)
Definition parsing_policy (trim : string -> string) (output : string) : Prop :=
  ∀ name value,
    parse_make_output output !! name = Some value →
    captured_after_marker trim (PyStr.split "010" output) name value
    ∧ name ∉ BUILT_IN_VARS.

(** Worlds that differ in what was printed and spawned only. *)
Definition same_env (w w2 : World) : Prop :=
  fs w = fs w2 ∧ environ w = environ w2 ∧ debug w = debug w2.

(** A computation that leaves files alone, and whose result does not
    depend on what was printed or spawned before. *)
Definition read_only {A} (m : M A) : Prop :=
  ∀ w, same_env (snd (m w)) w ∧ ∀ w2, same_env w w2 → fst (m w) = fst (m w2).

(** [w'] has every file of [w], with the same contents, and nothing else
    of the file system or the environment changed. *)
Definition extends (w w' : World) : Prop :=
  cwd (fs w') = cwd (fs w) ∧ dirs (fs w') = dirs (fs w)
  ∧ environ w' = environ w ∧ debug w' = debug w
  ∧ ∀ k c, files (fs w) !! k = Some c → files (fs w') !! k = Some c.

Definition monotone {A} (m : M A) : Prop := ∀ w, extends w (snd (m w)).

(** Worlds that differ in the [debug] flag and in what was printed only. *)
Definition same_but_debug (w w2 : World) : Prop :=
  fs w = fs w2 ∧ environ w = environ w2 ∧ spawned w = spawned w2.

(** A computation whose result, files and processes do not depend on the
    [debug] flag. *)
Definition debug_blind {A} (m : M A) : Prop :=
  ∀ w w2, same_but_debug w w2 →
          fst (m w) = fst (m w2) ∧ same_but_debug (snd (m w)) (snd (m w2)).

(** * Proofs *)

(** ** The primitives on the values of the Python documentation *)

Example split_keeps_empty_fields :
  PyStr.split " " "a  b" = ["a"; EmptyString; "b"]
  ∧ PyStr.split " " EmptyString = [EmptyString].
Proof. split; reflexivity. Qed.

Example strip_both_ends : PyStr.strip "  a b  " = "a b" ∧ PyStr.rstrip "  a b  " = "  a b".
Proof. split; reflexivity. Qed.

Example join_examples :
  posixpath.join "comp" [EmptyString; "*.[cS]"] = "comp/*.[cS]"
  ∧ posixpath.join "comp" ["/abs/x.c"] = "/abs/x.c"
  ∧ posixpath.join "comp/" ["x.c"] = "comp/x.c".
Proof. repeat split; reflexivity. Qed.

Example normpath_examples :
  posixpath.normpath "comp/./*.[cS]" = "comp/*.[cS]"
  ∧ posixpath.normpath "//a/../../b/./c//" = "//b/c"
  ∧ posixpath.normpath "../a/../../b" = "../../b"
  ∧ posixpath.normpath "a/.." = "."
  ∧ posixpath.normpath EmptyString = ".".
Proof. repeat split; reflexivity. Qed.

Example splitext_examples :
  posixpath.splitext "a/b.c/foo.o" = ("a/b.c/foo", ".o")
  ∧ posixpath.splitext ".bashrc" = (".bashrc", EmptyString)
  ∧ posixpath.splitext "a.b/foo" = ("a.b/foo", EmptyString)
  ∧ posixpath.splitext "x.tar.gz" = ("x.tar", ".gz").
Proof. repeat split; reflexivity. Qed.

Example basename_examples :
  posixpath.basename "a/b/main" = "main" ∧ posixpath.basename "main/" = EmptyString.
Proof. split; reflexivity. Qed.

Example relpath_examples :
  posixpath.relpath "/home" "/proj/main/a.c" "/proj" = Some "main/a.c"
  ∧ posixpath.relpath "/proj" "main/main.c" "." = Some "main/main.c"
  ∧ posixpath.relpath "/h" "/x/y" "/x/z/w" = Some "../../y"
  ∧ posixpath.relpath "/h" "a" "a" = Some ".".
Proof. repeat split; reflexivity. Qed.

Example re_match_examples :
  re_match_assignment "A := b c" = Some ("A", "b c")
  ∧ re_match_assignment "A = b" = Some ("A", "b")
  ∧ re_match_assignment "A =" = None
  ∧ re_match_assignment "A=b" = None
  ∧ re_match_assignment " = b" = None
  ∧ re_match_assignment "A += b" = None.
Proof. repeat split; reflexivity. Qed.

(** ** The monad *)

Lemma bind_inr {A B} (m : M A) (k : A → M B) w a w1 :
  m w = (inr a, w1) → bind m k w = k a w1.
Proof. intros E. unfold bind. by rewrite E. Qed.

Lemma bind_inl {A B} (m : M A) (k : A → M B) w e w1 :
  m w = (inl e, w1) → bind m k w = (inl e, w1).
Proof. intros E. unfold bind. by rewrite E. Qed.

Lemma bind_inv {A B} (m : M A) (k : A → M B) w b w' :
  bind m k w = (inr b, w') → ∃ a w1, m w = (inr a, w1) ∧ k a w1 = (inr b, w').
Proof.
  unfold bind. destruct (m w) as [[e|a] w1]; [discriminate|]. intros E. eauto.
Qed.

Lemma same_env_refl w : same_env w w.
Proof. by repeat split. Qed.

Lemma same_env_sym w w2 : same_env w w2 → same_env w2 w.
Proof. intros (?&?&?). by repeat split. Qed.

Lemma same_env_trans w1 w2 w3 : same_env w1 w2 → same_env w2 w3 → same_env w1 w3.
Proof. intros (?&?&?) (?&?&?). repeat split; congruence. Qed.

Lemma read_only_ret {A} (a : A) : read_only (ret a).
Proof. intros w. split; [apply same_env_refl | done]. Qed.

Lemma read_only_raise {A} e : read_only (raise (A := A) e).
Proof. intros w. split; [apply same_env_refl | done]. Qed.

Lemma read_only_bind {A B} (m : M A) (k : A → M B) :
  read_only m → (∀ a, read_only (k a)) → read_only (bind m k).
Proof.
  intros Hm Hk w. destruct (Hm w) as [Hs Hv]. unfold bind.
  destruct (m w) as [[e|a] w1] eqn:E; simpl in *.
  - split; [done|]. intros w2 Hw. specialize (Hv w2 Hw).
    destruct (m w2) as [[e2|a2] w3]; simpl in *; congruence.
  - destruct (Hk a w1) as [Hs1 Hv1]. split.
    + eapply same_env_trans; eauto.
    + intros w2 Hw. specialize (Hv w2 Hw).
      destruct (Hm w2) as [Hs2 _].
      destruct (m w2) as [[e2|a2] w3]; simpl in *; [discriminate|].
      injection Hv as <-. apply Hv1.
      eapply same_env_trans; [exact Hs|].
      eapply same_env_trans; [exact Hw|]. by apply same_env_sym.
Qed.

Lemma read_only_print s : read_only (print s).
Proof. intros w. split; [by repeat split | done]. Qed.

Lemma read_only_gets {A} (f : World → A) :
  (∀ w w2, same_env w w2 → f w = f w2) → read_only (gets f).
Proof.
  intros Hf w. split; [apply same_env_refl|]. intros w2 Hw. simpl. f_equal. by apply Hf.
Qed.

Lemma read_only_when_debug m : read_only m → read_only (when_debug m).
Proof.
  intros Hm. apply read_only_bind.
  - apply read_only_gets. by intros ?? (?&?&?).
  - intros []; [done | apply read_only_ret].
Qed.

Lemma read_only_exists p : read_only (os_path_exists p).
Proof. apply read_only_gets. intros ?? (E&?&?). by rewrite E. Qed.

Lemma read_only_dict_index d k : read_only (dict_index d k).
Proof. unfold dict_index. destruct (d !! k); [apply read_only_ret | apply read_only_raise]. Qed.

Lemma read_only_monotone {A} (m : M A) : read_only m → monotone m.
Proof.
  intros Hm w. destruct (Hm w) as [(E&?&?) _]. unfold extends. rewrite E. by repeat split.
Qed.

Lemma extends_refl w : extends w w.
Proof. by repeat split. Qed.

Lemma extends_trans w1 w2 w3 : extends w1 w2 → extends w2 w3 → extends w1 w3.
Proof.
  intros (?&?&?&?&Hf1) (?&?&?&?&Hf2). repeat split; try congruence. eauto.
Qed.

Lemma monotone_bind {A B} (m : M A) (k : A → M B) :
  monotone m → (∀ a, monotone (k a)) → monotone (bind m k).
Proof.
  intros Hm Hk w. specialize (Hm w). unfold bind.
  destruct (m w) as [[e|a] w1]; simpl in *; [done|].
  eapply extends_trans; [exact Hm | apply Hk].
Qed.

Lemma monotone_for_each {A} (f : A → M unit) l :
  (∀ a, monotone (f a)) → monotone (for_each f l).
Proof.
  intros Hf. induction l as [|x l IH]; simpl.
  - intros w. apply extends_refl.
  - apply monotone_bind; [apply Hf | intros _; exact IH].
Qed.

(** ** The variable resolver *)

Section Resolver.

Context {ext : Externals}.

Lemma read_only_popen cmdline : read_only (popen cmdline).
Proof.
  intros w. split; [by repeat split|]. intros w2 (E&_&_). simpl. by rewrite E.
Qed.

Lemma read_only_get_make_variables path makefile ef vars :
  read_only (get_make_variables path makefile ef vars).
Proof.
  unfold get_make_variables.
  apply read_only_bind; [apply read_only_when_debug, read_only_print|intros _].
  apply read_only_bind; [apply read_only_popen|intros [[rc out] err]].
  destruct (negb ef && negb (rc =? 0)%Z); [apply read_only_raise|].
  apply read_only_bind; [|intros _; apply read_only_ret].
  apply read_only_when_debug.
  repeat (apply read_only_bind; [apply read_only_print|intros _]).
  apply read_only_print.
Qed.

(** What a call of [get_make_variables] returns and leaves behind. *)
Lemma get_make_variables_run path makefile ef vars w :
  let cmdline := make_cmdline path makefile vars in
  get_make_variables path makefile ef vars w =
    if negb ef && negb (make_returncode (fs w) cmdline =? 0)%Z
    then (inl (RuntimeError ("Unexpected make failure, result "
                             +:+ PyStr.of_Z (make_returncode (fs w) cmdline))),
          mkWorld (fs w) (environ w) (debug w)
            (stdout w ++ (if debug w
                          then ["Running " +:+ PyStr.join " " cmdline +:+ "..."]
                          else []))
            (spawned w ++ [cmdline]))
    else (inr (parse_make_output (make_stdout (fs w) cmdline)),
          mkWorld (fs w) (environ w) (debug w)
            (stdout w ++ make_debug_lines (debug w) (fs w) cmdline)
            (spawned w ++ [cmdline])).
Proof.
  intros cmdline. unfold get_make_variables, make_debug_lines, make_stdout, make_returncode.
  fold cmdline. clearbody cmdline. destruct w as [f env dbg out sp]. simpl.
  unfold bind, when_debug, bind, gets, popen, print, ret, raise.
  destruct dbg; cbn [fs environ debug stdout spawned fst snd];
    destruct (make f cmdline) as [[rc o] err]; cbn [fst snd];
    destruct (negb ef && negb (rc =? 0)%Z); cbn [fs environ debug stdout spawned];
    rewrite ?app_nil_r, <- ?app_assoc; reflexivity.
Qed.


End Resolver.


(** ** The parser of the output of [make] *)

Lemma append_cons c a b : String c a +:+ b = String c (a +:+ b).
Proof. reflexivity. Qed.

Lemma append_empty b : EmptyString +:+ b = b.
Proof. reflexivity. Qed.

Lemma split_nonempty sep s : PyStr.split sep s ≠ [].
Proof.
  destruct s as [|c s]; simpl; [done|].
  destruct (Ascii.eqb c sep); [done|]. by destruct (PyStr.split sep s).
Qed.

Lemma split_no_sep sep s x : x ∈ PyStr.split sep s → PyStr.mem_char sep x = false.
Proof.
  revert x. induction s as [|c s IH]; intros x; simpl.
  - intros ->%list_elem_of_singleton. done.
  - destruct (Ascii.eqb c sep) eqn:E.
    + intros [->|Hx]%elem_of_cons; [done | by apply IH].
    + destruct (PyStr.split sep s) as [|hd tl] eqn:Es.
      * intros ->%list_elem_of_singleton. simpl.
        rewrite Ascii.eqb_sym, E. done.
      * intros [->|Hx]%elem_of_cons.
        -- simpl. rewrite Ascii.eqb_sym, E. simpl. apply IH. by left.
        -- apply IH. by right.
Qed.

Lemma upto_newline_id s : PyStr.mem_char "010" s = false → upto_newline s = s.
Proof.
  induction s as [|c s IH]; cbn [upto_newline PyStr.mem_char]; [done|].
  intros [E1 E2]%orb_false_elim. rewrite Ascii.eqb_sym, E1. by rewrite IH.
Qed.

Lemma mem_char_app c a b :
  PyStr.mem_char c (a +:+ b) = PyStr.mem_char c a || PyStr.mem_char c b.
Proof.
  induction a as [|d a IH]; [done|].
  rewrite append_cons. cbn [PyStr.mem_char]. by rewrite IH, orb_assoc.
Qed.

Lemma span_nonspace_app s a b : span_nonspace s = (a, b) → s = a +:+ b.
Proof.
  revert a b. induction s as [|c s IH]; intros a b; cbn [span_nonspace].
  - by intros [= <- <-].
  - destruct (Ascii.eqb c " "); [by intros [= <- <-]|].
    destruct (span_nonspace s) as [a' b']. intros [= <- <-].
    rewrite append_cons. f_equal. by apply IH.
Qed.

Lemma startswith_drop p s :
  PyStr.startswith p s = true → s = p +:+ PyStr.drop (String.length p) s.
Proof.
  revert s. induction p as [|c p IH]; intros s; [done|].
  destruct s as [|d s]; [done|]. cbn [PyStr.startswith String.length PyStr.drop].
  intros [E1 E2]%andb_true_iff. apply Ascii.eqb_eq in E1 as ->.
  rewrite append_cons. f_equal. by apply IH.
Qed.

Lemma after_assign_Some rest r :
  after_assign rest = Some r → rest = " := " +:+ r ∨ rest = " = " +:+ r.
Proof.
  unfold after_assign.
  destruct (PyStr.startswith " := " rest) eqn:E1.
  - intros [= <-]. left. by apply startswith_drop in E1.
  - destruct (PyStr.startswith " = " rest) eqn:E2; [|done].
    intros [= <-]. right. by apply startswith_drop in E2.
Qed.

(** A successful match on a line without line feed splits the line into
    name, assignment sign and value. *)
Lemma re_match_assignment_Some line var val :
  PyStr.mem_char "010" line = false →
  re_match_assignment line = Some (var, val) →
  line = var +:+ " := " +:+ val ∨ line = var +:+ " = " +:+ val.
Proof.
  intros Hnl. unfold re_match_assignment.
  destruct (span_nonspace line) as [a rest] eqn:Es.
  apply span_nonspace_app in Es. subst line.
  destruct (PyStr.is_empty a); [done|].
  destruct (after_assign rest) as [r|] eqn:Ea; [|done].
  destruct (PyStr.is_empty (upto_newline r)); [done|].
  intros [= <- <-].
  rewrite mem_char_app in Hnl. apply orb_false_elim in Hnl as [_ Hrest].
  apply after_assign_Some in Ea as [->| ->];
    rewrite mem_char_app in Hrest; apply orb_false_elim in Hrest as [_ Hr];
    rewrite (upto_newline_id _ Hr); auto.
Qed.

Lemma captured_after_marker_app trim pre rest name value :
  captured_after_marker trim pre name value →
  captured_after_marker trim (pre ++ rest) name value.
Proof.
  intros (i & marker & val & Hi & Hm & Hl & Hv).
  exists i, marker, val. repeat split; [by apply lookup_app_l_Some | done | | done].
  destruct Hl as [Hl|Hl]; [left|right]; by apply lookup_app_l_Some.
Qed.

(** The invariant of the loop over the lines: the flag is set only right
    after a marker line, and every entry comes from a captured line. *)
Lemma parse_lines_invariant rest : ∀ pre flag res,
  (flag = true → ∃ m, last pre = Some m ∧ PyStr.startswith "# makefile" m = true) →
  (∀ k v, res !! k = Some v →
          captured_after_marker PyStr.strip pre k v ∧ k ∉ BUILT_IN_VARS) →
  (∀ x, x ∈ rest → PyStr.mem_char "010" x = false) →
  ∀ k v, snd (fold_left parse_line rest (flag, res)) !! k = Some v →
         captured_after_marker PyStr.strip (pre ++ rest) k v ∧ k ∉ BUILT_IN_VARS.
Proof.
  induction rest as [|line rest IH]; intros pre flag res Hflag Hres Hnl k v;
    cbn [fold_left].
  - rewrite app_nil_r. apply Hres.
  - replace (pre ++ line :: rest) with ((pre ++ [line]) ++ rest)
      by (by rewrite <- app_assoc).
    assert (Hnl' : ∀ x, x ∈ rest → PyStr.mem_char "010" x = false)
      by (intros x Hx; apply Hnl; by right).
    assert (Hline : PyStr.mem_char "010" line = false) by (apply Hnl; by left).
    assert (Hkeep : ∀ k v, res !! k = Some v →
              captured_after_marker PyStr.strip (pre ++ [line]) k v ∧ k ∉ BUILT_IN_VARS).
    { intros k' v' Hk. destruct (Hres _ _ Hk). split; [|done].
      by apply captured_after_marker_app. }
    unfold parse_line at 2.
    destruct (PyStr.startswith "# makefile" line) eqn:Em.
    { apply IH; [|done|done]. intros _. exists line. by rewrite last_snoc. }
    destruct flag.
    2:{ apply IH; [done|done|done]. }
    destruct (Hflag eq_refl) as (m & Hlast & Hm).
    apply last_Some in Hlast as [pre0 ->].
    destruct (re_match_assignment line) as [[var val]|] eqn:Er.
    2:{ apply IH; [done|done|done]. }
    destruct (bool_decide (var ∈ BUILT_IN_VARS)) eqn:Eb.
    { apply IH; [done|done|done]. }
    apply bool_decide_eq_false in Eb.
    apply IH; [done| |done].
    intros k' v'. destruct (decide (var = k')) as [<-|Hne].
    + rewrite lookup_insert_eq. intros [= <-]. split; [|done].
      exists (length pre0), m, val. repeat split; [| done |].
      * rewrite <- app_assoc. by apply list_lookup_middle.
      * apply re_match_assignment_Some in Er; [|done].
        assert (((pre0 ++ [m]) ++ [line]) !! S (length pre0) = Some line) as Hl.
        { apply list_lookup_middle. rewrite length_app. simpl. lia. }
        destruct Er as [E|E]; [left|right]; by rewrite <- E.
    + rewrite lookup_insert_ne by done. apply Hkeep.
Qed.

(** C5, as the code has it: an entry of the mapping comes only from a line
    [name := val] or [name = val] right after a marker line, its value is
    [val] with the white space removed at both ends, and its name is none of
    [MAKEFILE_LIST], [SHELL], [CURDIR], [MAKEFLAGS]. *)
Theorem parse_make_output_policy output : parsing_policy PyStr.strip output.
Proof.
  intros name value Hl. unfold parse_make_output in Hl.
  apply (parse_lines_invariant (PyStr.split "010" output) [] false ∅); try done.
  intros x Hx. by apply split_no_sep in Hx.
Qed.

(** C5, as stated, fails: after a marker line, the line [A =  x] (two
    spaces after the sign) gives [A] the value [x], which is not the
    captured value with its right end trimmed. *)
Lemma parsing_policy_rstrip_counterexample :
  ¬ parsing_policy PyStr.rstrip ("# makefile" +:+ PyStr.nl +:+ "A =  x").
Proof.
  intros Hp. destruct (Hp "A" "x") as [(i & marker & val & Hi & Hm & Hl & Hv) _].
  { by vm_compute. }
  assert (PyStr.split "010" ("# makefile" +:+ PyStr.nl +:+ "A =  x")
          = ["# makefile"; "A =  x"]) as Es by by vm_compute.
  rewrite Es in Hi, Hl.
  destruct i as [|[|i]]; cbn [lookup list_lookup] in Hl.
  - destruct Hl as [Hl|Hl]; apply (inj Some) in Hl; vm_compute in Hl.
    + discriminate Hl.
    + injection Hl as <-. by vm_compute in Hv.
  - destruct Hl as [Hl|Hl]; discriminate.
  - destruct Hl as [Hl|Hl]; discriminate.
Qed.

(** ** Components *)

Section Component.

Context {ext : Externals}.

Lemma world_eta w : mkWorld (fs w) (environ w) (debug w) (stdout w) (spawned w) = w.
Proof. by destruct w. Qed.

Lemma find_src_run component_path obj w :
  find_src component_path obj w =
    (inr (pick_src (fs w) component_path obj),
     mkWorld (fs w) (environ w) (debug w)
       (stdout w ++ match pick_src (fs w) component_path obj with
                    | Some _ => []
                    | None => [missing_src_warning component_path obj]
                    end)
       (spawned w)).
Proof.
  unfold find_src, pick_src, missing_src_warning, find_src_loop.
  unfold bind, os_path_exists, gets, print, ret.
  repeat match goal with
         | |- context [fs_exists ?f ?p] => destruct (fs_exists f p)
         end;
    cbn [fs environ debug stdout spawned]; rewrite ?app_nil_r, ?world_eta; reflexivity.
Qed.

Lemma collect_srcs_run component_path objs : ∀ w,
  collect_srcs component_path objs w =
    (inr (omap (pick_src (fs w) component_path) objs),
     mkWorld (fs w) (environ w) (debug w)
       (stdout w ++ missing_src_warnings (fs w) component_path objs)
       (spawned w)).
Proof.
  induction objs as [|obj objs IH]; intros w; cbn [collect_srcs].
  - unfold ret. cbn. by rewrite app_nil_r, world_eta.
  - unfold bind at 1. rewrite find_src_run.
    unfold bind at 1. rewrite IH. unfold ret.
    cbn [fs environ debug stdout spawned omap list_omap missing_src_warnings].
    destruct (pick_src (fs w) component_path obj);
      cbn [app]; rewrite ?app_nil_r, <- ?app_assoc; reflexivity.
Qed.

(** What a call of [get_component_variables] returns and leaves behind. *)
Lemma get_component_variables_run project_path component_path w :
  get_component_variables project_path component_path w =
    match environ w !! "IDF_PATH" with
    | None => (inl (KeyError "IDF_PATH"), w)
    | Some idf_path =>
        let cmdline := wrapper_cmdline idf_path project_path component_path in
        let raw := raw_component_vars (fs w) idf_path project_path component_path in
        (inr (derived_component_vars (fs w) component_path raw),
         mkWorld (fs w) (environ w) (debug w)
           (stdout w ++ make_debug_lines (debug w) (fs w) cmdline
            ++ match raw !! "COMPONENT_OBJS" with
               | Some objs =>
                   missing_src_warnings (fs w) component_path (PyStr.split " " objs)
               | None => []
               end)
           (spawned w ++ [cmdline]))
    end.
Proof.
  unfold get_component_variables.
  unfold bind at 1. unfold gets at 1. unfold bind at 1. unfold dict_index.
  destruct (environ w !! "IDF_PATH") as [idf|]; [|reflexivity].
  unfold ret at 1. unfold bind at 1. rewrite get_make_variables_run.
  cbn [negb andb]. unfold derived_component_vars, raw_component_vars, wrapper_cmdline.
  set (cmdline := make_cmdline _ _ _).
  set (raw := parse_make_output _).
  unfold bind at 1.
  destruct (raw !! "COMPONENT_OBJS") as [objs|].
  - unfold bind at 1. rewrite collect_srcs_run. unfold ret.
    cbn [fs environ debug stdout spawned]. by rewrite <- app_assoc.
  - unfold ret. cbn [fs environ debug stdout spawned]. by rewrite app_nil_r.
Qed.

Lemma read_only_get_component_variables project_path component_path :
  read_only (get_component_variables project_path component_path).
Proof.
  intros w. split.
  - rewrite get_component_variables_run.
    destruct (environ w !! "IDF_PATH"); [by repeat split | apply same_env_refl].
  - intros w2 (Ef&Ee&Ed). rewrite !get_component_variables_run.
    rewrite <- Ef, <- Ee. by destruct (environ w !! "IDF_PATH").
Qed.

(** The outcome of [get_component_variables], when it is a mapping, is the
    derived mapping, and it always has the include directories. *)
Lemma get_component_variables_inr project_path component_path w v :
  fst (get_component_variables project_path component_path w) = inr v →
  ∃ idf_path,
    environ w !! "IDF_PATH" = Some idf_path
    ∧ v = derived_component_vars (fs w) component_path
            (raw_component_vars (fs w) idf_path project_path component_path).
Proof.
  rewrite get_component_variables_run.
  destruct (environ w !! "IDF_PATH") as [idf|]; [|done].
  intros [= <-]. by exists idf.
Qed.

Lemma derived_includedirs f component_path raw :
  derived_component_vars f component_path raw !! "COMPONENT_ADD_INCLUDEDIRS"
  = Some (default "include" (raw !! "COMPONENT_ADD_INCLUDEDIRS")).
Proof.
  unfold derived_component_vars. rewrite lookup_insert_eq. f_equal.
  destruct (raw !! "COMPONENT_OBJS"); by rewrite lookup_insert_ne.
Qed.

(** C6: when [make] names a list of object files, the resolution does not
    fail; [COMPONENT_SRCS] becomes the sources found for the stems, each
    looked for under the component directory with [c], then [cpp], then [S]
    ([pick_src]); a stem without a source is left out, and one warning is
    printed for it. Nothing on disk changes. *)
Theorem get_component_variables_objs project_path component_path w idf_path objs :
  environ w !! "IDF_PATH" = Some idf_path →
  raw_component_vars (fs w) idf_path project_path component_path !! "COMPONENT_OBJS"
    = Some objs →
  ∃ v w',
    get_component_variables project_path component_path w = (inr v, w')
    ∧ v !! "COMPONENT_SRCS"
      = Some (PyStr.join " "
                (omap (pick_src (fs w) component_path) (PyStr.split " " objs)))
    ∧ fs w' = fs w
    ∧ stdout w'
      = stdout w
        ++ make_debug_lines (debug w) (fs w)
             (wrapper_cmdline idf_path project_path component_path)
        ++ missing_src_warnings (fs w) component_path (PyStr.split " " objs)
    ∧ (∀ obj, obj ∈ PyStr.split " " objs →
         pick_src (fs w) component_path obj = None →
         missing_src_warning component_path obj ∈ stdout w').
Proof.
  intros Hidf Hobjs. rewrite get_component_variables_run, Hidf. cbn zeta.
  rewrite Hobjs. eexists _, _. split; [reflexivity|].
  cbn [fs stdout]. repeat split.
  - unfold derived_component_vars. rewrite Hobjs.
    rewrite lookup_insert_ne by done. by rewrite lookup_insert_eq.
  - intros obj Hin Hnone. rewrite !elem_of_app. right. right.
    unfold missing_src_warnings. apply list_elem_of_omap.
    exists obj. by rewrite Hnone.
Qed.

(** *** Writing the descriptor of a component *)

Lemma fs_read_write f p content : fs_read (fs_write f p content) p = Some content.
Proof. unfold fs_read, fs_write. cbn. by rewrite lookup_insert_eq. Qed.

Lemma when_debug_print_run s w :
  when_debug (print s) w =
    (inr tt, mkWorld (fs w) (environ w) (debug w)
               (stdout w ++ (if debug w then [s] else [])) (spawned w)).
Proof.
  unfold when_debug, bind, gets, print, ret.
  destruct (debug w) eqn:Ed; [by rewrite Ed|].
  by rewrite app_nil_r, <- Ed, world_eta.
Qed.

(** The component already has its descriptor: a notice, nothing else. *)
Lemma convert_component_skip project_path component_path w :
  fs_exists (fs w) (cmakelists_of component_path) = true →
  convert_component project_path component_path w =
    (inr tt,
     mkWorld (fs w) (environ w) (debug w)
       (stdout w
        ++ (if debug w then ["Converting " +:+ component_path +:+ "..."] else [])
        ++ ["Skipping already-converted component "
            +:+ cmakelists_of component_path +:+ "..."])
       (spawned w)).
Proof.
  intros He. unfold convert_component, cmakelists_of in *.
  unfold bind, when_debug, bind, gets, os_path_exists, gets, print, ret.
  destruct (debug w) eqn:Ed; cbn [fs environ debug stdout spawned];
    rewrite He; cbn [fs environ debug stdout spawned];
    rewrite <- ?app_assoc, ?Ed; reflexivity.
Qed.

(** The component has no descriptor yet, and its variables are resolved:
    the descriptor is written, or [open] fails. *)
Lemma convert_component_fresh project_path component_path w v :
  fs_exists (fs w) (cmakelists_of component_path) = false →
  fst (get_component_variables project_path component_path w) = inr v →
  ∃ incl out out_err sp,
    v !! "COMPONENT_ADD_INCLUDEDIRS" = Some incl
    ∧ convert_component project_path component_path w =
        if fs_writable (fs w) (cmakelists_of component_path) then
          (inr tt,
           mkWorld
             (fs_write (fs w) (cmakelists_of component_path)
                (String.concat EmptyString
                   (component_chunks incl (classify (fs w) component_path v)
                      (v !! "CFLAGS"))))
             (environ w) (debug w) out sp)
        else
          (inl (IOError (cmakelists_of component_path)),
           mkWorld (fs w) (environ w) (debug w) out_err sp).
Proof.
  intros He Hv.
  apply get_component_variables_inr in Hv as (idf & Hidf & ->).
  eexists _, _, _, _. split; [apply derived_includedirs|].
  unfold convert_component, cmakelists_of in *.
  unfold bind at 1. rewrite when_debug_print_run.
  unfold bind at 1. unfold os_path_exists at 1, gets at 1.
  cbn [fs environ debug stdout spawned]. rewrite He.
  unfold bind at 1. rewrite get_component_variables_run.
  cbn [fs environ debug stdout spawned]. rewrite Hidf. cbn zeta.
  unfold bind at 1. unfold gets at 1. cbn [fs].
  unfold bind at 1. unfold dict_index. rewrite derived_includedirs. unfold ret at 1.
  unfold bind at 1. unfold open_w. cbn [fs environ debug stdout spawned].
  destruct (fs_writable (fs w) _); [|reflexivity].
  unfold print. cbn [fs environ debug stdout spawned]. reflexivity.
Qed.

Lemma classify_cases f component_path v :
  classify f component_path v
  = match v !! "COMPONENT_SRCS" with
    | None => ConfigOnly
    | Some component_srcs =>
        if same_sources f component_path v component_srcs then
          match v !! "COMPONENT_SRCDIRS" with
          | Some d => BySourceDirs d
          | None => BySourceFiles component_srcs
          end
        else BySourceFiles component_srcs
    end.
Proof.
  unfold classify, choose_srcdirs, emission_form.
  destruct (v !! "COMPONENT_SRCS") as [s|]; [|done].
  destruct (same_sources f component_path v s); [|done].
  by destruct (v !! "COMPONENT_SRCDIRS").
Qed.

(** When the descriptor can be written, it holds what [component_chunks]
    lists for the form the classifier chose. *)
Lemma convert_component_emits project_path component_path w v :
  fst (get_component_variables project_path component_path w) = inr v →
  fs_exists (fs w) (cmakelists_of component_path) = false →
  fs_writable (fs w) (cmakelists_of component_path) = true →
  ∃ w' incl,
    convert_component project_path component_path w = (inr tt, w')
    ∧ v !! "COMPONENT_ADD_INCLUDEDIRS" = Some incl
    ∧ fs_read (fs w') (cmakelists_of component_path)
      = Some (String.concat EmptyString
                (component_chunks incl (classify (fs w) component_path v)
                   (v !! "CFLAGS"))).
Proof.
  intros Hv He Hw.
  destruct (convert_component_fresh _ _ _ _ He Hv) as (incl & out & out' & sp & Hi & Hc).
  rewrite Hw in Hc. eexists _, incl. split; [exact Hc|]. split; [done|].
  cbn [fs]. apply fs_read_write.
Qed.


Lemma same_sources_false f component_path v component_srcs :
  same_sources f component_path v component_srcs = false
  ↔ (list_to_set (component_allsrcs f component_path v) : gset string)
    ≠ list_to_set (abs_component_srcs component_path component_srcs).
Proof. unfold same_sources. apply bool_decide_eq_false. Qed.

Lemma filter_forallb {A} (p : A → bool) (l : list A) :
  forallb p l = true → List.filter p l = l.
Proof.
  induction l as [|x l IH]; [done|]. cbn [forallb List.filter].
  intros [Hx Hl]%andb_true_iff. by rewrite Hx, IH.
Qed.

Lemma names_no_empty s : no_empty_name s = true → names s = PyStr.split " " s.
Proof. apply filter_forallb. Qed.

(** Without empty entries, the two lists the code compares are the two
    sets of the spec. *)
Lemma code_globbed_sources f component_path v d :
  v !! "COMPONENT_SRCDIRS" = Some d → no_empty_name d = true →
  (list_to_set (component_allsrcs f component_path v) : gset string)
  = globbed_sources f component_path (Some d).
Proof.
  intros Hd Hne. unfold component_allsrcs, globbed_sources. rewrite Hd.
  change (default EmptyString (Some d)) with d.
  change (default "." (Some d)) with d.
  by rewrite (names_no_empty _ Hne).
Qed.

Lemma code_explicit_sources component_path s :
  no_empty_name s = true →
  (list_to_set (abs_component_srcs component_path s) : gset string)
  = explicit_sources component_path s.
Proof.
  intros Hne. unfold abs_component_srcs, explicit_sources.
  by rewrite (names_no_empty _ Hne).
Qed.


(** X14: the component has an explicit source list, and either no
    source-directory list, or one such that both lists are without empty
    name and the files globbed across the source directories are not, as a
    set, the explicit sources joined to the component path and normalised.
    Then the file form is chosen, and the descriptor, when there is none
    yet and it can be written, is the writes spelled below, with the source
    list exactly as resolved; none is a source-directories declaration. *)
Theorem classify_by_source_files project_path component_path w v component_srcs :
  fst (get_component_variables project_path component_path w) = inr v →
  v !! "COMPONENT_SRCS" = Some component_srcs →
  (v !! "COMPONENT_SRCDIRS" = None
   ∨ ∃ component_srcdirs,
       v !! "COMPONENT_SRCDIRS" = Some component_srcdirs
       ∧ no_empty_name component_srcs = true
       ∧ no_empty_name component_srcdirs = true
       ∧ globbed_sources (fs w) component_path (Some component_srcdirs)
         ≠ explicit_sources component_path component_srcs) →
  classify (fs w) component_path v = BySourceFiles component_srcs
  ∧ (fs_exists (fs w) (cmakelists_of component_path) = false →
     fs_writable (fs w) (cmakelists_of component_path) = true →
     ∃ w' incl,
       convert_component project_path component_path w = (inr tt, w')
       ∧ v !! "COMPONENT_ADD_INCLUDEDIRS" = Some incl
       ∧ let writes :=
           [ "set(COMPONENT_ADD_INCLUDEDIRS " +:+ incl +:+ ")" +:+ PyStr.nl +:+ PyStr.nl;
             "set(COMPONENT_SRCS " +:+ component_srcs +:+ ")" +:+ PyStr.nl +:+ PyStr.nl;
             "register_component()" +:+ PyStr.nl ]
           ++ match v !! "CFLAGS" with
              | Some c => ["component_compile_options(" +:+ c +:+ ")" +:+ PyStr.nl]
              | None => []
              end in
         fs_read (fs w') (cmakelists_of component_path)
         = Some (String.concat EmptyString writes)
         ∧ existsb is_srcs_decl writes = true
         ∧ existsb is_srcdirs_decl writes = false).
Proof.
  intros Hv Hs Hcase.
  assert (Hc : classify (fs w) component_path v = BySourceFiles component_srcs).
  { rewrite classify_cases, Hs.
    destruct Hcase as [Hnone|(d & Hd & Hns & Hnd & Hne)].
    - rewrite Hnone. by destruct (same_sources _ _ _ _).
    - rewrite (proj2 (same_sources_false _ _ _ _)); [reflexivity|].
      by rewrite (code_globbed_sources _ _ _ _ Hd Hnd), (code_explicit_sources _ _ Hns). }
  split; [done|]. intros He Hw.
  destruct (convert_component_emits _ _ _ _ Hv He Hw) as (w' & incl & Hrun & Hi & Hr).
  exists w', incl. rewrite Hc in Hr. split; [exact Hrun|]. split; [exact Hi|].
  cbn zeta. split; [|split].
  - rewrite Hr. by destruct (v !! "CFLAGS").
  - destruct (v !! "CFLAGS"); vm_compute; reflexivity.
  - destruct (v !! "CFLAGS"); vm_compute; reflexivity.
Qed.

(** C3: [make] printed neither [COMPONENT_SRCS] nor [COMPONENT_OBJS] for
    the component. Then the resolved variables have no source list, the
    form is [ConfigOnly], and the descriptor, when there is none yet and it
    can be written, is the include-directories declaration (of [include]
    when [make] printed none) followed by [register_config_only_component()]
    and, if [CFLAGS] is set, the compile options: no source-files and no
    source-directories declaration. *)
Theorem classify_config_only project_path component_path w idf_path :
  environ w !! "IDF_PATH" = Some idf_path →
  let raw := raw_component_vars (fs w) idf_path project_path component_path in
  raw !! "COMPONENT_SRCS" = None →
  raw !! "COMPONENT_OBJS" = None →
  ∃ v,
    fst (get_component_variables project_path component_path w) = inr v
    ∧ v !! "COMPONENT_SRCS" = None
    ∧ classify (fs w) component_path v = ConfigOnly
    ∧ (fs_exists (fs w) (cmakelists_of component_path) = false →
       fs_writable (fs w) (cmakelists_of component_path) = true →
       ∃ w',
         convert_component project_path component_path w = (inr tt, w')
         ∧ let chunks :=
             include_chunk (default "include" (raw !! "COMPONENT_ADD_INCLUDEDIRS"))
             :: config_only_chunk :: cflags_chunks (raw !! "CFLAGS") in
           fs_read (fs w') (cmakelists_of component_path)
           = Some (String.concat EmptyString chunks)
           ∧ existsb is_srcs_decl chunks = false
           ∧ existsb is_srcdirs_decl chunks = false).
Proof.
  intros Hidf raw Hs Ho.
  set (v := derived_component_vars (fs w) component_path raw).
  assert (Hv : fst (get_component_variables project_path component_path w) = inr v).
  { by rewrite get_component_variables_run, Hidf. }
  assert (Hvs : v !! "COMPONENT_SRCS" = None).
  { subst v. unfold derived_component_vars. rewrite Ho.
    by rewrite !lookup_insert_ne. }
  assert (Hvc : v !! "CFLAGS" = raw !! "CFLAGS").
  { subst v. unfold derived_component_vars. rewrite Ho.
    by rewrite !lookup_insert_ne. }
  assert (Hc : classify (fs w) component_path v = ConfigOnly).
  { by rewrite classify_cases, Hvs. }
  exists v. repeat split; try done. intros He Hw.
  destruct (convert_component_emits _ _ _ _ Hv He Hw) as (w' & incl & Hrun & Hi & Hr).
  exists w'. split; [done|].
  subst v. rewrite derived_includedirs in Hi. injection Hi as <-.
  rewrite Hc, Hvc in Hr. repeat split; [exact Hr | |];
    destruct (raw !! "CFLAGS"); by vm_compute.
Qed.

(** C10: a component that already has its descriptor is left before its
    variables are resolved: no process is spawned, and the file system is
    what it was. *)
Theorem convert_component_skip_frame project_path component_path w :
  fs_exists (fs w) (cmakelists_of component_path) = true →
  ∃ w',
    convert_component project_path component_path w = (inr tt, w')
    ∧ spawned w' = spawned w
    ∧ fs w' = fs w.
Proof.
  intros He. rewrite (convert_component_skip _ _ _ He). by eexists.
Qed.

End Component.

(** ** Files that exist are kept *)

Section Frame.

Context {ext : Externals}.

(** One step of a computation, seen from a base world [w0]. *)
Lemma bind_extends {A B} (m : M A) (k : A → M B) w0 w :
  extends w0 (snd (m w)) →
  (∀ a w1, m w = (inr a, w1) → extends w0 (snd (k a w1))) →
  extends w0 (snd (bind m k w)).
Proof.
  intros Hm Hk. unfold bind. destruct (m w) as [[e|a] w1]; [exact Hm|].
  by apply Hk.
Qed.

Lemma read_only_extends {A} (m : M A) w0 w :
  read_only m → extends w0 w → extends w0 (snd (m w)).
Proof.
  intros Hm Hw. eapply extends_trans; [exact Hw|]. by apply read_only_monotone.
Qed.

Lemma read_only_run {A} (m : M A) w a w1 :
  read_only m → m w = (inr a, w1) → same_env w1 w.
Proof. intros Hm E. destruct (Hm w) as [Hs _]. by rewrite E in Hs. Qed.

Lemma extends_same_env w0 w w1 : extends w0 w → same_env w1 w → extends w0 w1.
Proof.
  intros (?&?&?&?&Hf) (Ef&?&?). unfold extends. rewrite Ef.
  repeat split; try congruence. done.
Qed.

(** Writing a file that did not exist in the base world, or that cannot be
    written at all, keeps what the base world had. *)
Lemma open_w_extends w0 w p chunks :
  fs_exists (fs w0) p = false →
  extends w0 w →
  extends w0 (snd (open_w p chunks w)).
Proof.
  intros He Hext. unfold open_w.
  destruct (fs_writable (fs w) p) eqn:Hw; [|done].
  destruct Hext as (Hcwd & Hdirs & Henv & Hdbg & Hfiles).
  unfold extends. cbn [snd fs environ debug fs_write cwd dirs files].
  repeat split; try done.
  intros k c Hk. specialize (Hfiles _ _ Hk).
  unfold fs_writable in Hw. unfold fs_exists in He.
  destruct (PyStr.is_empty p); [done|].
  apply orb_false_elim in He as [He _].
  unfold is_file in He. apply bool_decide_eq_false in He.
  rewrite Hcwd. rewrite lookup_insert_ne; [done|].
  intros <-. apply He. by exists c.
Qed.

Lemma monotone_convert_component project_path component_path :
  monotone (convert_component project_path component_path).
Proof.
  intros w. unfold convert_component.
  apply bind_extends.
  { apply read_only_extends; [apply read_only_when_debug, read_only_print|].
    apply extends_refl. }
  intros [] w1 E1.
  assert (Hw1 : extends w w1).
  { eapply extends_same_env; [apply extends_refl|].
    eapply read_only_run; [|exact E1]. apply read_only_when_debug, read_only_print. }
  apply bind_extends.
  { by apply read_only_extends; [apply read_only_exists|]. }
  intros e w2 E2. unfold os_path_exists, gets in E2. injection E2 as <- <-.
  destruct (fs_exists (fs w1) _) eqn:He.
  { by apply read_only_extends; [apply read_only_print|]. }
  eapply extends_trans; [exact Hw1|].
  apply bind_extends.
  { apply read_only_extends; [apply read_only_get_component_variables|].
    apply extends_refl. }
  intros v w3 E3.
  assert (Hw3 : extends w1 w3).
  { eapply extends_same_env; [apply extends_refl|].
    eapply read_only_run; [|exact E3]. apply read_only_get_component_variables. }
  apply bind_extends; [done|]. intros f w4 E4. injection E4 as <- <-.
  apply bind_extends.
  { by apply read_only_extends; [apply read_only_dict_index|]. }
  intros incl w5 E5.
  assert (Hw5 : extends w1 w5).
  { eapply extends_same_env; [exact Hw3|].
    eapply read_only_run; [|exact E5]. apply read_only_dict_index. }
  apply bind_extends.
  { by apply open_w_extends. }
  intros [] w6 E6.
  apply read_only_extends; [apply read_only_print|].
  match type of E6 with
  | open_w ?p ?c _ = _ => pose proof (open_w_extends w1 w5 p c He Hw5) as Hx
  end.
  by rewrite E6 in Hx.
Qed.

Lemma bind_extends_ro {A B} (m : M A) (k : A → M B) w0 w :
  read_only m → extends w0 w →
  (∀ a w1, m w = (inr a, w1) → extends w0 w1 → extends w0 (snd (k a w1))) →
  extends w0 (snd (bind m k w)).
Proof.
  intros Hm Hw Hk. apply bind_extends; [by apply read_only_extends|].
  intros a w1 E. apply Hk; [done|].
  eapply extends_same_env; [exact Hw|]. by eapply read_only_run.
Qed.

Lemma bind_extends_mono {A B} (m : M A) (k : A → M B) w0 w :
  monotone m → extends w0 w →
  (∀ a w1, m w = (inr a, w1) → extends w0 w1 → extends w0 (snd (k a w1))) →
  extends w0 (snd (bind m k w)).
Proof.
  intros Hm Hw Hk.
  assert (Hx : extends w0 (snd (m w))) by (eapply extends_trans; [exact Hw|apply Hm]).
  apply bind_extends; [done|]. intros a w1 E. apply Hk; [done|]. by rewrite E in Hx.
Qed.

Lemma read_only_map_M {A B} (f : A → M B) l :
  (∀ a, read_only (f a)) → read_only (map_M f l).
Proof.
  intros Hf. induction l as [|x l IH]; cbn [map_M]; [apply read_only_ret|].
  apply read_only_bind; [apply Hf|intros y].
  apply read_only_bind; [apply IH|intros ys]. apply read_only_ret.
Qed.

Lemma read_only_main_srcs_abs mp l : read_only (main_srcs_abs mp l).
Proof.
  apply read_only_map_M. intros m.
  destruct mp; [apply read_only_ret | apply read_only_raise].
Qed.

Lemma read_only_main_srcs_rel project_path l : read_only (main_srcs_rel project_path l).
Proof.
  apply read_only_map_M. intros m. apply read_only_bind.
  - apply read_only_gets. intros ?? (E&_&_). by rewrite E.
  - intros c. destruct (posixpath.relpath c m project_path);
      [apply read_only_ret | apply read_only_raise].
Qed.

Lemma read_only_find_main project_path component_paths :
  read_only (find_main project_path component_paths).
Proof.
  unfold find_main.
  destruct (filter _ component_paths) as [|p ps].
  - apply read_only_bind; [apply read_only_print|intros _; apply read_only_ret].
  - apply read_only_bind; [apply read_only_when_debug, read_only_print|intros _].
    apply read_only_bind; [apply read_only_get_component_variables|intros v].
    apply read_only_ret.
Qed.

(** Whatever [convert_project] does, a file that existed keeps its
    contents. *)
Lemma convert_project_extends project_path w :
  extends w (snd (convert_project project_path w)).
Proof.
  unfold convert_project.
  apply bind_extends_ro; [apply read_only_exists|apply extends_refl|].
  intros e1 w1 _ H1. destruct (negb e1); [exact H1|].
  apply bind_extends_ro; [apply read_only_exists|exact H1|].
  intros e2 w2 _ H2. destruct (negb e2); [exact H2|].
  apply bind_extends; [by apply read_only_extends; [apply read_only_exists|]|].
  intros e3 w3 E3. unfold os_path_exists, gets in E3. injection E3 as <- <-.
  destruct (fs_exists (fs w2) _) eqn:He; [exact H2|].
  assert (He0 : fs_exists (fs w) (posixpath.join project_path ["CMakeLists.txt"]) = false).
  { clear -He H2. destruct H2 as (Hc & Hd & _ & _ & Hf).
    revert He. unfold fs_exists. rewrite Hc.
    destruct (PyStr.is_empty _); [done|].
    intros [He1 He2]%orb_false_elim. apply orb_false_intro.
    - unfold is_file in *. apply bool_decide_eq_false in He1.
      apply bool_decide_eq_false. intros [c Hc']. apply He1. exists c. by apply Hf.
    - unfold is_dir in *. by rewrite <- Hd. }
  apply bind_extends_ro; [apply read_only_get_make_variables|exact H2|].
  intros project_vars w4 _ H4.
  destruct (negb _); [exact H4|].
  apply bind_extends_ro; [apply read_only_dict_index|exact H4|].
  intros cps w5 _ H5.
  apply bind_extends_ro; [apply read_only_find_main|exact H5|].
  intros [mp mv] w6 _ H6.
  apply bind_extends_mono;
    [apply monotone_for_each; intros; apply monotone_convert_component|exact H6|].
  intros [] w7 _ H7.
  apply bind_extends_ro; [apply read_only_dict_index|exact H7|].
  intros srcs w8 _ H8.
  apply bind_extends_ro; [apply read_only_main_srcs_abs|exact H8|].
  intros abs w9 _ H9.
  apply bind_extends_ro; [apply read_only_main_srcs_rel|exact H9|].
  intros rel w10 _ H10.
  apply bind_extends_ro; [apply read_only_dict_index|exact H10|].
  intros name w11 _ H11.
  apply bind_extends; [by apply open_w_extends|].
  intros [] w12 E12.
  apply read_only_extends; [apply read_only_print|].
  match type of E12 with
  | open_w ?p ?c _ = _ => pose proof (open_w_extends w w11 p c He0 H11) as Hx
  end.
  by rewrite E12 in Hx.
Qed.

(** An existing project descriptor: the error, and the world as it was. *)
Lemma convert_project_already project_path w :
  fs_exists (fs w) (cmakelists_of project_path) = true →
  ∃ msg, convert_project project_path w = (inl (RuntimeError msg), w).
Proof.
  intros He. unfold convert_project, cmakelists_of in *.
  unfold bind at 1. unfold os_path_exists at 1, gets at 1.
  destruct (fs_exists (fs w) project_path); cbn [negb]; [|by eexists].
  unfold bind at 1. unfold os_path_exists at 1, gets at 1.
  destruct (fs_exists (fs w) (posixpath.join project_path ["Makefile"]));
    cbn [negb]; [|by eexists].
  unfold bind at 1. unfold os_path_exists at 1, gets at 1.
  rewrite He. by eexists.
Qed.

(** C7: nothing that exists is overwritten. A component that has its
    descriptor is skipped with a notice, and the loop goes on with the next
    component; a project that has its descriptor makes [convert_project]
    raise with the world untouched: nothing written, printed or spawned;
    and in every run of the two functions, each file that existed before
    has the same contents after. *)
Theorem existing_descriptors_kept project_path component_path rest w :
  (fs_exists (fs w) (cmakelists_of component_path) = true →
     ∃ w',
       convert_component project_path component_path w = (inr tt, w')
       ∧ fs w' = fs w
       ∧ last (stdout w')
         = Some ("Skipping already-converted component "
                 +:+ cmakelists_of component_path +:+ "...")
       ∧ for_each (convert_component project_path) (component_path :: rest) w
         = for_each (convert_component project_path) rest w')
  ∧ (fs_exists (fs w) (cmakelists_of project_path) = true →
       ∃ msg, convert_project project_path w = (inl (RuntimeError msg), w))
  ∧ (∀ k c, files (fs w) !! k = Some c →
       files (fs (snd (convert_project project_path w))) !! k = Some c
       ∧ files (fs (snd (convert_component project_path component_path w))) !! k
         = Some c).
Proof.
  split; [|split].
  - intros He. eexists. split; [by apply convert_component_skip|].
    cbn [fs stdout]. split; [done|]. split.
    + by rewrite app_assoc, last_snoc.
    + cbn [for_each]. unfold bind at 1. by rewrite (convert_component_skip _ _ _ He).
  - apply convert_project_already.
  - intros k c Hk. split.
    + by apply (convert_project_extends project_path w).
    + by apply (monotone_convert_component project_path component_path w).
Qed.

End Frame.

(** ** The project descriptor *)

Section Project.

Context {ext : Externals}.

Lemma dict_index_inv d k w v w' :
  dict_index d k w = (inr v, w') → d !! k = Some v ∧ w' = w.
Proof.
  unfold dict_index. destruct (d !! k); [|discriminate].
  by intros [= <- <-].
Qed.

Lemma open_w_inv p chunks w w' :
  open_w p chunks w = (inr tt, w') →
  fs w' = fs_write (fs w) p (String.concat EmptyString chunks).
Proof.
  unfold open_w. destruct (fs_writable (fs w) p); [|discriminate].
  by intros [= <-].
Qed.

(** A comprehension whose body only reads the world. *)
Lemma map_M_inv {A B} (f : A → M B) (g : World → A → option B) :
  (∀ a w b w', f a w = (inr b, w') → w' = w ∧ g w a = Some b) →
  ∀ l w r w', map_M f l w = (inr r, w') →
              w' = w ∧ Forall2 (λ a b, g w a = Some b) l r.
Proof.
  intros Hf. induction l as [|x l IH]; intros w r w'; cbn [map_M].
  - intros [= <- <-]. by split.
  - intros (y & w1 & E1 & E)%bind_inv.
    apply bind_inv in E as (ys & w2 & E2 & E). injection E as <- <-.
    apply Hf in E1 as [-> Hy]. apply IH in E2 as [-> Hys].
    split; [done|]. by constructor.
Qed.

Lemma main_srcs_abs_inv mp l w r w' :
  main_srcs_abs mp l w = (inr r, w') →
  w' = w
  ∧ (l = [] ∨ ∃ main_component_path,
       mp = Some main_component_path
       ∧ r = map (λ m, posixpath.normpath (posixpath.join main_component_path [m])) l).
Proof.
  intros E. destruct mp as [p|].
  - apply (map_M_inv _ (λ _ m, Some (posixpath.normpath (posixpath.join p [m]))))
      in E as [-> Hr].
    + split; [done|]. right. exists p. split; [done|].
      induction Hr as [|???? [= <-]]; [done|]. cbn [map]. by f_equal.
    + by intros a w0 b w0' [= <- <-].
  - split; [|left]; destruct l; cbn in E; (done || by injection E).
Qed.

Lemma main_srcs_rel_inv project_path l w r w' :
  main_srcs_rel project_path l w = (inr r, w') →
  w' = w
  ∧ Forall2 (λ m b, posixpath.relpath (cwd (fs w)) m project_path = Some b) l r.
Proof.
  apply (map_M_inv _ (λ w m, posixpath.relpath (cwd (fs w)) m project_path)).
  intros a w0 b w0'. unfold bind, gets.
  destruct (posixpath.relpath _ a project_path); [|discriminate].
  by intros [= <- <-].
Qed.

Lemma find_main_inv project_path component_paths w mp mv w' :
  find_main project_path component_paths w = (inr (mp, mv), w') →
  same_env w' w
  ∧ match mp with
    | Some p =>
        head (filter (λ p, is_main p = true) component_paths) = Some p
        ∧ fst (get_component_variables project_path p w) = inr mv
    | None => filter (λ p, is_main p = true) component_paths = []
    end.
Proof.
  intros E. split.
  { eapply read_only_run; [apply read_only_find_main|exact E]. }
  unfold find_main in E.
  destruct (filter _ component_paths) as [|p ps].
  - apply bind_inv in E as ([] & w1 & _ & E). by injection E as <- <- <-.
  - apply bind_inv in E as ([] & w1 & E1 & E).
    apply bind_inv in E as (v & w2 & E2 & E). injection E as <- <- <-.
    split; [done|].
    destruct (read_only_get_component_variables project_path p w1) as [_ Hv].
    rewrite <- (Hv w); [by rewrite E2|].
    eapply read_only_run; [|exact E1]. apply read_only_when_debug, read_only_print.
Qed.

(** Everything a successful run of [convert_project] went through: the
    resolved variables, the first [main] component, the two comprehensions,
    and the final write over the file system [f] the components left. *)
Lemma convert_project_inv project_path w w' :
  convert_project project_path w = (inr tt, w') →
  ∃ project_name component_paths main_component_path main_vars main_srcs rel_srcs f,
    raw_project_vars (fs w) project_path !! "PROJECT_NAME" = Some project_name
    ∧ raw_project_vars (fs w) project_path !! "COMPONENT_PATHS" = Some component_paths
    ∧ head (filter (λ p, is_main p = true) (PyStr.split " " component_paths))
      = Some main_component_path
    ∧ fst (get_component_variables project_path main_component_path w) = inr main_vars
    ∧ main_vars !! "COMPONENT_SRCS" = Some main_srcs
    ∧ cwd f = cwd (fs w)
    ∧ Forall2 (λ a r, posixpath.relpath (cwd f) a project_path = Some r)
        (map (λ m, posixpath.normpath (posixpath.join main_component_path [m]))
             (PyStr.split " " main_srcs))
        rel_srcs
    ∧ fs w' = fs_write f (cmakelists_of project_path)
                (String.concat EmptyString (project_chunks rel_srcs project_name)).
Proof.
  intros E. unfold convert_project in E.
  apply bind_inv in E as (e1 & w1 & E1 & E). injection E1 as <- <-.
  destruct (negb _); [discriminate|].
  apply bind_inv in E as (e2 & w2 & E2 & E). injection E2 as <- <-.
  destruct (negb _); [discriminate|].
  apply bind_inv in E as (e3 & w3 & E3 & E). injection E3 as <- <-.
  destruct (fs_exists _ _); [discriminate|].
  apply bind_inv in E as (project_vars & w4 & E4 & E).
  rewrite get_make_variables_run in E4. cbn [negb andb] in E4.
  injection E4 as <- <-.
  fold (raw_project_vars (fs w) project_path) in E.
  destruct (negb _); [discriminate|].
  apply bind_inv in E as (cps & w5 & E5 & E). apply dict_index_inv in E5 as [Hcps ->].
  apply bind_inv in E as ([mp mv] & w6 & E6 & E).
  apply find_main_inv in E6 as [H6 Hmain].
  apply bind_inv in E as ([] & w7 & E7 & E).
  assert (H7 : extends w6 w7).
  { pose proof (monotone_for_each (convert_component project_path)
                  (filter (λ p, is_main p = false) (PyStr.split " " cps))
                  (monotone_convert_component project_path) w6) as Hx.
    by rewrite E7 in Hx. }
  apply bind_inv in E as (srcs & w8 & E8 & E). apply dict_index_inv in E8 as [Hsrcs ->].
  apply bind_inv in E as (abs & w9 & E9 & E).
  apply main_srcs_abs_inv in E9 as [-> Habs].
  apply bind_inv in E as (rel & w10 & E10 & E).
  apply main_srcs_rel_inv in E10 as [-> Hrel].
  apply bind_inv in E as (name & w11 & E11 & E). apply dict_index_inv in E11 as [Hname ->].
  apply bind_inv in E as ([] & w12 & E12 & E). apply open_w_inv in E12.
  injection E as <-. cbn [fs].
  destruct Habs as [Hnil|(p & -> & ->)].
  { by apply split_nonempty in Hnil. }
  destruct Hmain as [Hhead Hgcv].
  exists name, cps, p, mv, srcs, rel, (fs w7).
  repeat split; try done.
  - rewrite <- Hgcv.
    destruct (read_only_get_component_variables project_path p w) as [_ Hv].
    apply Hv. by repeat split.
  - destruct H7 as (Hc7 & _). destruct H6 as (Hf6 & _). by rewrite Hc7, Hf6.
Qed.

(** X23: a project descriptor that is written is the four writes spelled
    below: the preamble, [set(MAIN_SRCS ...)], the include line and
    [project(...)] with the resolved name; none of them is a declaration
    that lists components. The entries of [MAIN_SRCS] are the entries of
    [split(" ")] of the source list of the first component named [main],
    each joined to the path of that component, normalised and made relative
    to the project directory; when that list has no empty name, they are
    its names. *)
Theorem convert_project_descriptor project_path w w' :
  convert_project project_path w = (inr tt, w') →
  ∃ project_name component_paths main_component_path main_vars main_srcs entry_srcs,
    raw_project_vars (fs w) project_path !! "PROJECT_NAME" = Some project_name
    ∧ raw_project_vars (fs w) project_path !! "COMPONENT_PATHS" = Some component_paths
    ∧ head (filter (λ p, is_main p = true) (PyStr.split " " component_paths))
      = Some main_component_path
    ∧ fst (get_component_variables project_path main_component_path w) = inr main_vars
    ∧ main_vars !! "COMPONENT_SRCS" = Some main_srcs
    ∧ Forall2 (λ m r, entry_source (cwd (fs w)) project_path main_component_path m
                      = Some r)
              (PyStr.split " " main_srcs) entry_srcs
    ∧ (no_empty_name main_srcs = true →
       Forall2 (λ m r, entry_source (cwd (fs w)) project_path main_component_path m
                       = Some r)
               (names main_srcs) entry_srcs)
    ∧ let writes :=
        [ PyStr.nl +:+
          "# (Automatically converted from project Makefile by convert_to_cmake.py.)"
            +:+ PyStr.nl +:+
          PyStr.nl +:+
          "# The following four lines of boilerplate have to be in your project's CMakeLists"
            +:+ PyStr.nl +:+
          "# in this exact order for cmake to work correctly" +:+ PyStr.nl +:+
          "cmake_minimum_required(VERSION 3.5)" +:+ PyStr.nl +:+
          PyStr.nl;
          "set(MAIN_SRCS " +:+ PyStr.join " " entry_srcs +:+ ")" +:+ PyStr.nl;
          PyStr.nl +:+ "include($ENV{IDF_PATH}/tools/cmake/project.cmake)" +:+ PyStr.nl;
          "project(" +:+ project_name +:+ ")" +:+ PyStr.nl ] in
      fs_read (fs w') (cmakelists_of project_path)
      = Some (String.concat EmptyString writes)
      ∧ existsb is_component_list_decl writes = false.
Proof.
  intros E.
  apply convert_project_inv in E
    as (name & cps & p & mv & srcs & rel & f & Hn & Hc & Hh & Hv & Hs & Hcwd & Hrel & Hw).
  assert (Hall : Forall2 (λ m r, entry_source (cwd (fs w)) project_path p m = Some r)
                         (PyStr.split " " srcs) rel).
  { apply Forall2_fmap_l in Hrel. rewrite Hcwd in Hrel.
    eapply Forall2_impl; [exact Hrel|]. intros m r Hm. exact Hm. }
  exists name, cps, p, mv, srcs, rel.
  repeat split; try done.
  - intros Hne. by rewrite (names_no_empty _ Hne).
  - rewrite Hw. apply fs_read_write.
Qed.

(** X19: without a component named [main], [convert_project] never returns:
    the warning is printed, and then the comprehension over the entry
    sources reads [main_component_path], which was never bound. *)
Lemma convert_project_no_main_fails project_path w component_paths :
  raw_project_vars (fs w) project_path !! "COMPONENT_PATHS" = Some component_paths →
  filter (λ p, is_main p = true) (PyStr.split " " component_paths) = [] →
  ∃ e, fst (convert_project project_path w) = inl e.
Proof.
  intros Hcps Hnone.
  destruct (convert_project project_path w) as [[e|[]] w'] eqn:E; [by exists e|].
  apply convert_project_inv in E
    as (n & cps & p & mv & srcs & rel & f & _ & Hc & Hh & _).
  rewrite Hcps in Hc. injection Hc as <-. by rewrite Hnone in Hh.
Qed.

End Project.

(** ** The statements at concrete inputs *)

(** C8, on the project without [main]: the warning is printed and the one
    component is converted, then the run ends in a [NameError] and the
    project has no descriptor. *)
Theorem convert_project_without_main :
  convert_project (ext := Fake.externals Fake.nomain_table) "." Fake.demo
  = (inl (NameError "main_component_path"),
     snd (convert_project (ext := Fake.externals Fake.nomain_table) "." Fake.demo))
  ∧ stdout (snd (convert_project (ext := Fake.externals Fake.nomain_table) "." Fake.demo))
    = [ "WARNING: Project has no 'main' component, but CMake-based system requires at least one file in MAIN_SRCS...";
        "Converted compB/CMakeLists.txt" ]
  ∧ fs_read (fs (snd (convert_project (ext := Fake.externals Fake.nomain_table)
                        "." Fake.demo)))
            (cmakelists_of ".")
    = None.
Proof. repeat split; vm_compute; reflexivity. Qed.



(** C2, on [compE]: the source directories are [src] and [lib], written
    with two spaces between them, and the list names [top.c] besides their
    files, so the explicit sources are not the files of the declared
    directories. But the empty entry of [split(" ")] makes the code glob the
    component directory too; its two lists compare equal, the directory form
    is chosen and the descriptor declares the directories only: [top.c] is
    in no declaration. *)
Theorem doubled_space_srcdirs_drop_source :
  Fake.spaced_vars !! "COMPONENT_SRCS" = Some "top.c src/a.c lib/b.c"
  ∧ Fake.spaced_vars !! "COMPONENT_SRCDIRS" = Some "src  lib"
  ∧ names "src  lib" = ["src"; "lib"]
  ∧ globbed_sources (ext := Fake.externals Fake.spaced_table) (fs Fake.spaced)
      "compE" (Some "src  lib")
    = list_to_set ["compE/src/a.c"; "compE/lib/b.c"]
  ∧ explicit_sources "compE" "top.c src/a.c lib/b.c"
    = list_to_set ["compE/top.c"; "compE/src/a.c"; "compE/lib/b.c"]
  ∧ bool_decide
      (globbed_sources (ext := Fake.externals Fake.spaced_table) (fs Fake.spaced)
         "compE" (Some "src  lib")
       = explicit_sources "compE" "top.c src/a.c lib/b.c") = false
  ∧ classify (ext := Fake.externals Fake.spaced_table) (fs Fake.spaced) "compE"
      Fake.spaced_vars = BySourceDirs "src  lib"
  ∧ convert_component (ext := Fake.externals Fake.spaced_table) "." "compE" Fake.spaced
    = (inr tt,
       snd (convert_component (ext := Fake.externals Fake.spaced_table)
              "." "compE" Fake.spaced))
  ∧ fs_read (fs (snd (convert_component (ext := Fake.externals Fake.spaced_table)
                        "." "compE" Fake.spaced)))
            "compE/CMakeLists.txt"
    = Some ("set(COMPONENT_ADD_INCLUDEDIRS include)" +:+ PyStr.nl +:+ PyStr.nl
            +:+ "set(COMPONENT_SRCDIRS src  lib)" +:+ PyStr.nl +:+ PyStr.nl
            +:+ "register_component()" +:+ PyStr.nl).
Proof. repeat split; vm_compute; reflexivity. Qed.

(** C9, on a project whose [main] names the object [m.o] without source:
    the resolved source list of [main] is empty, it has no name, and the
    project descriptor is written with [set(MAIN_SRCS main)]: the empty
    entry of [split(" ")], joined to the path of [main], is the directory
    of the component. *)
Theorem main_without_sources_lists_directory :
  Fake.nosrc_main_vars !! "COMPONENT_SRCS" = Some EmptyString
  ∧ names EmptyString = []
  ∧ convert_project (ext := Fake.externals Fake.nosrc_table) "." Fake.nosrc
    = (inr tt, snd (convert_project (ext := Fake.externals Fake.nosrc_table)
                      "." Fake.nosrc))
  ∧ fs_read (fs (snd (convert_project (ext := Fake.externals Fake.nosrc_table)
                        "." Fake.nosrc)))
            "./CMakeLists.txt"
    = Some (PyStr.nl
            +:+ "# (Automatically converted from project Makefile by convert_to_cmake.py.)"
            +:+ PyStr.nl +:+ PyStr.nl
            +:+ "# The following four lines of boilerplate have to be in your project's CMakeLists"
            +:+ PyStr.nl
            +:+ "# in this exact order for cmake to work correctly" +:+ PyStr.nl
            +:+ "cmake_minimum_required(VERSION 3.5)" +:+ PyStr.nl +:+ PyStr.nl
            +:+ "set(MAIN_SRCS main)" +:+ PyStr.nl
            +:+ PyStr.nl +:+ "include($ENV{IDF_PATH}/tools/cmake/project.cmake)"
            +:+ PyStr.nl
            +:+ "project(demo)" +:+ PyStr.nl).
Proof. repeat split; vm_compute; reflexivity. Qed.

(** [compC]: the list names [c1.c], the directory also has [c2.c]: the file
    form, and the text of the descriptor. *)
Lemma classify_by_source_files_witness :
  classify (ext := Fake.externals Fake.demo_table) (fs Fake.demo) "compC"
    (Fake.demo_vars "compC") = BySourceFiles "c1.c"
  ∧ ∃ w',
      convert_component (ext := Fake.externals Fake.demo_table) "." "compC" Fake.demo
      = (inr tt, w')
      ∧ fs_read (fs w') "compC/CMakeLists.txt"
        = Some ("set(COMPONENT_ADD_INCLUDEDIRS include)" +:+ PyStr.nl +:+ PyStr.nl
                +:+ "set(COMPONENT_SRCS c1.c)" +:+ PyStr.nl +:+ PyStr.nl
                +:+ "register_component()" +:+ PyStr.nl).
Proof.
  destruct (classify_by_source_files (ext := Fake.externals Fake.demo_table)
              "." "compC" Fake.demo (Fake.demo_vars "compC") "c1.c")
    as [Hc Hw].
  - vm_compute. reflexivity.
  - vm_compute. reflexivity.
  - right. exists ".". split; [vm_compute; reflexivity|].
    split; [vm_compute; reflexivity|]. split; [vm_compute; reflexivity|].
    intros Heq. apply (bool_decide_eq_true_2 _) in Heq. vm_compute in Heq.
    discriminate Heq.
  - split; [exact Hc|].
    destruct Hw as (w' & incl & Hrun & Hi & Hr & _).
    + vm_compute. reflexivity.
    + vm_compute. reflexivity.
    + exists w'. split; [exact Hrun|].
      assert (incl = "include") as -> by (vm_compute in Hi; congruence).
      refine (eq_trans Hr _). vm_compute. reflexivity.
Defined.

(** [compB]: [make] prints no variable of the component. *)
Lemma classify_config_only_witness :
  ∃ v w',
    classify (ext := Fake.externals Fake.demo_table) (fs Fake.demo) "compB" v = ConfigOnly
    ∧ convert_component (ext := Fake.externals Fake.demo_table) "." "compB" Fake.demo
      = (inr tt, w')
    ∧ fs_read (fs w') "compB/CMakeLists.txt"
      = Some ("set(COMPONENT_ADD_INCLUDEDIRS include)" +:+ PyStr.nl +:+ PyStr.nl
              +:+ "register_config_only_component()" +:+ PyStr.nl).
Proof.
  destruct (classify_config_only (ext := Fake.externals Fake.demo_table)
              "." "compB" Fake.demo "/idf")
    as (v & _ & _ & Hc & Hw).
  - vm_compute. reflexivity.
  - vm_compute. reflexivity.
  - vm_compute. reflexivity.
  - destruct Hw as (w' & Hrun & Hr & _).
    + vm_compute. reflexivity.
    + vm_compute. reflexivity.
    + exists v, w'. split; [exact Hc|]. split; [exact Hrun|].
      refine (eq_trans Hr _). vm_compute. reflexivity.
Defined.


(** The entry of [A] in the output of the counterexample. *)
Lemma parse_make_output_policy_witness :
  captured_after_marker PyStr.strip
    (PyStr.split "010" ("# makefile" +:+ PyStr.nl +:+ "A =  x")) "A" "x"
  ∧ "A" ∉ BUILT_IN_VARS.
Proof.
  apply (parse_make_output_policy ("# makefile" +:+ PyStr.nl +:+ "A =  x") "A" "x").
  vm_compute. reflexivity.
Defined.

(** [compA]: [gone.o] has no source. *)
Lemma get_component_variables_objs_witness :
  ∃ v w',
    get_component_variables (ext := Fake.externals Fake.demo_table) "." "compA" Fake.demo
    = (inr v, w')
    ∧ v !! "COMPONENT_SRCS" = Some "a.c b.cpp"
    ∧ stdout w'
      = ["WARNING: Can't find source file for component compA COMPONENT_OBJS gone"].
Proof.
  destruct (get_component_variables_objs (ext := Fake.externals Fake.demo_table)
              "." "compA" Fake.demo "/idf" "a.o gone.o b.o")
    as (v & w' & Hrun & Hs & _ & Hout & _).
  - vm_compute. reflexivity.
  - vm_compute. reflexivity.
  - exists v, w'. split; [exact Hrun|]. split.
    + rewrite Hs. vm_compute. reflexivity.
    + rewrite Hout. vm_compute. reflexivity.
Defined.

(** The project converted once: [compA] and the project have their
    descriptors. *)
Lemma existing_descriptors_kept_witness :
  (∃ w',
     convert_component (ext := Fake.externals Fake.demo_table) "." "compA" Fake.converted
     = (inr tt, w')
     ∧ fs w' = fs Fake.converted)
  ∧ (∃ msg, convert_project (ext := Fake.externals Fake.demo_table) "." Fake.converted
            = (inl (RuntimeError msg), Fake.converted))
  ∧ files (fs (snd (convert_project (ext := Fake.externals Fake.demo_table)
                      "." Fake.converted))) !! "/proj/compA/CMakeLists.txt"
    = Some "register_component()".
Proof.
  destruct (existing_descriptors_kept (ext := Fake.externals Fake.demo_table)
              "." "compA" ["compB"] Fake.converted) as (Hc & Hp & Hk).
  split; [|split].
  - destruct Hc as (w' & Hrun & Hfs & _); [vm_compute; reflexivity|].
    exists w'. by split.
  - apply Hp. vm_compute. reflexivity.
  - apply Hk. vm_compute. reflexivity.
Defined.

(** [compA] of the converted project. *)
Lemma convert_component_skip_frame_witness :
  ∃ w',
    convert_component (ext := Fake.externals Fake.demo_table) "." "compA" Fake.converted
    = (inr tt, w')
    ∧ spawned w' = []
    ∧ fs w' = fs Fake.converted.
Proof.
  apply (convert_component_skip_frame (ext := Fake.externals Fake.demo_table)
           "." "compA" Fake.converted).
  vm_compute. reflexivity.
Defined.

(** The project of the scenario, and the text of its descriptor. *)
Lemma convert_project_descriptor_witness :
  fs_read (fs (snd (convert_project (ext := Fake.externals Fake.demo_table)
                      "." Fake.demo)))
          "./CMakeLists.txt"
  = Some (PyStr.nl
          +:+ "# (Automatically converted from project Makefile by convert_to_cmake.py.)"
          +:+ PyStr.nl +:+ PyStr.nl
          +:+ "# The following four lines of boilerplate have to be in your project's CMakeLists"
          +:+ PyStr.nl
          +:+ "# in this exact order for cmake to work correctly" +:+ PyStr.nl
          +:+ "cmake_minimum_required(VERSION 3.5)" +:+ PyStr.nl +:+ PyStr.nl
          +:+ "set(MAIN_SRCS main/main.c)" +:+ PyStr.nl
          +:+ PyStr.nl +:+ "include($ENV{IDF_PATH}/tools/cmake/project.cmake)"
          +:+ PyStr.nl
          +:+ "project(demo)" +:+ PyStr.nl).
Proof.
  destruct (convert_project_descriptor (ext := Fake.externals Fake.demo_table)
              "." Fake.demo
              (snd (convert_project (ext := Fake.externals Fake.demo_table) "." Fake.demo)))
    as (name & cps & mp & mv & srcs & rel & Hn & Hc & Hh & Hv & Hs & _ & Hrel & Hr & _).
  - vm_compute. reflexivity.
  - assert (name = "demo") as -> by (vm_compute in Hn; congruence).
    assert (cps = "main compA compB") as -> by (vm_compute in Hc; congruence).
    assert (mp = "main") as -> by (vm_compute in Hh; congruence).
    assert (srcs = "main.c") as ->.
    { assert (mv = Fake.demo_vars "main") as ->
        by (vm_compute in Hv; vm_compute; congruence).
      vm_compute in Hs. congruence. }
    assert (rel = ["main/main.c"]) as ->.
    { specialize (Hrel eq_refl).
      assert (names "main.c" = ["main.c"]) as Hnames by (vm_compute; reflexivity).
      rewrite Hnames in Hrel.
      apply Forall2_cons_inv_l in Hrel as (r & l & Hm & Hl & ->).
      apply Forall2_nil_inv_l in Hl as ->.
      vm_compute in Hm. by injection Hm as <-. }
    refine (eq_trans Hr _). vm_compute. reflexivity.
Defined.

(** * Further properties of the converter *)

(** ** More on the parser *)

Lemma split_app_sep sep a b :
  PyStr.split sep (a +:+ String sep b) = PyStr.split sep a ++ PyStr.split sep b.
Proof.
  induction a as [|c a IH].
  - rewrite append_empty. cbn [PyStr.split]. by rewrite Ascii.eqb_refl.
  - rewrite append_cons. cbn [PyStr.split]. rewrite IH.
    destruct (Ascii.eqb c sep); [done|].
    pose proof (split_nonempty sep a) as Hne.
    by destruct (PyStr.split sep a).
Qed.

Lemma split_no_sep_id sep s : PyStr.mem_char sep s = false → PyStr.split sep s = [s].
Proof.
  induction s as [|c s IH]; cbn [PyStr.split PyStr.mem_char]; [done|].
  intros [E1 E2]%orb_false_elim. rewrite Ascii.eqb_sym, E1. by rewrite IH.
Qed.

(** The lines of an output to which two more lines are appended. *)
Lemma split_two_more output l1 l2 :
  PyStr.mem_char "010" l1 = false → PyStr.mem_char "010" l2 = false →
  PyStr.split "010" (output +:+ PyStr.nl +:+ l1 +:+ PyStr.nl +:+ l2)
  = PyStr.split "010" output ++ [l1; l2].
Proof.
  intros H1 H2. unfold PyStr.nl.
  change (String "010" EmptyString +:+ l1 +:+ String "010" EmptyString +:+ l2)
    with (String "010" (l1 +:+ String "010" l2)).
  rewrite !split_app_sep. by rewrite (split_no_sep_id _ _ H1), (split_no_sep_id _ _ H2).
Qed.

Lemma span_nonspace_complete name rest :
  PyStr.mem_char " " name = false →
  span_nonspace (name +:+ String " " rest) = (name, String " " rest).
Proof.
  induction name as [|c name IH]; [done|].
  rewrite append_cons. cbn [span_nonspace PyStr.mem_char].
  intros [E1 E2]%orb_false_elim. rewrite Ascii.eqb_sym, E1. by rewrite IH.
Qed.

Lemma is_empty_false s : s ≠ EmptyString → PyStr.is_empty s = false.
Proof. by destruct s. Qed.

(** The pattern matches every line [name := val] and [name = val] whose
    name is not empty and has no space, and whose value is not empty. *)
Lemma re_match_assignment_complete name sign val :
  sign = " := " ∨ sign = " = " →
  name ≠ EmptyString → PyStr.mem_char " " name = false →
  val ≠ EmptyString → PyStr.mem_char "010" val = false →
  re_match_assignment (name +:+ sign +:+ val) = Some (name, val).
Proof.
  intros Hsign Hn Hsp Hv Hnl. unfold re_match_assignment.
  assert (∃ r, sign +:+ val = String " " r ∧ after_assign (String " " r) = Some val)
    as (r & Er & Ha).
  { destruct Hsign as [-> | ->]; eexists; (split; [reflexivity|]); reflexivity. }
  rewrite Er, (span_nonspace_complete _ _ Hsp), (is_empty_false _ Hn), Ha.
  by rewrite (upto_newline_id _ Hnl), (is_empty_false _ Hv).
Qed.

(** Such a line is never taken for a marker line. *)
Lemma assignment_not_marker name sign val :
  sign = " := " ∨ sign = " = " →
  name ≠ EmptyString → PyStr.mem_char " " name = false →
  PyStr.startswith "# makefile" (name +:+ sign +:+ val) = false.
Proof.
  intros Hsign Hn Hsp. destruct name as [|c [|d name]]; [done| |].
  - destruct (Ascii.eqb "#" c) eqn:E.
    + apply Ascii.eqb_eq in E as <-. by destruct Hsign as [-> | ->].
    + rewrite append_cons. cbn [PyStr.startswith]. by rewrite E.
  - rewrite !append_cons. cbn [PyStr.startswith].
    cbn [PyStr.mem_char] in Hsp.
    apply orb_false_elim in Hsp as [_ [Hd _]%orb_false_elim].
    rewrite Hd. by rewrite andb_false_r.
Qed.

(** X1: a definition that [make] prints last, right after a marker line,
    wins over what was parsed before for that name; a name of the denylist
    changes nothing. *)
Theorem parse_make_output_last_definition output marker name sign val :
  PyStr.startswith "# makefile" marker = true →
  PyStr.mem_char "010" marker = false →
  sign = " := " ∨ sign = " = " →
  name ≠ EmptyString → PyStr.mem_char " " name = false →
  PyStr.mem_char "010" name = false →
  val ≠ EmptyString → PyStr.mem_char "010" val = false →
  parse_make_output
    (output +:+ PyStr.nl +:+ marker +:+ PyStr.nl +:+ name +:+ sign +:+ val)
  = if bool_decide (name ∈ BUILT_IN_VARS) then parse_make_output output
    else <[name := PyStr.strip val]> (parse_make_output output).
Proof.
  intros Hm Hmnl Hsign Hn Hsp Hnnl Hv Hvnl. unfold parse_make_output.
  rewrite split_two_more; [|done|].
  2:{ rewrite !mem_char_app, Hnnl, Hvnl. by destruct Hsign as [-> | ->]. }
  rewrite fold_left_app. cbn [fold_left].
  destruct (fold_left parse_line (PyStr.split "010" output) (false, ∅)) as [flag res].
  unfold parse_line at 2. rewrite Hm.
  unfold parse_line. rewrite (assignment_not_marker _ _ _ Hsign Hn Hsp).
  rewrite (re_match_assignment_complete _ _ _ Hsign Hn Hsp Hv Hvnl).
  by destruct (bool_decide (name ∈ BUILT_IN_VARS)).
Qed.

(** The flag after a run of lines says whether the last line was a marker. *)
Lemma parse_lines_flag lines : ∀ st,
  fst (fold_left parse_line lines st)
  = match last lines with
    | Some l => PyStr.startswith "# makefile" l
    | None => fst st
    end.
Proof.
  induction lines as [|line lines IH] using rev_ind; intros st; [done|].
  rewrite fold_left_app, last_snoc. cbn [fold_left].
  destruct (fold_left parse_line lines st) as [flag res].
  unfold parse_line. destruct (PyStr.startswith "# makefile" line); [done|].
  destruct flag; [|done].
  destruct (re_match_assignment line) as [[var val]|]; [|done].
  by destruct (bool_decide (var ∈ BUILT_IN_VARS)).
Qed.

(** X2: a line that does not come right after a marker line defines
    nothing, whatever it looks like. *)
Theorem parse_make_output_unmarked_line output line :
  (∀ l, last (PyStr.split "010" output) = Some l →
        PyStr.startswith "# makefile" l = false) →
  PyStr.mem_char "010" line = false →
  parse_make_output (output +:+ PyStr.nl +:+ line) = parse_make_output output.
Proof.
  intros Hlast Hnl. unfold parse_make_output, PyStr.nl.
  change (String "010" EmptyString +:+ line) with (String "010" line).
  rewrite split_app_sep, (split_no_sep_id _ _ Hnl), fold_left_app. cbn [fold_left].
  pose proof (parse_lines_flag (PyStr.split "010" output) (false, ∅)) as Hflag.
  destruct (fold_left parse_line (PyStr.split "010" output) (false, ∅)) as [flag res].
  cbn [fst] in Hflag.
  assert (flag = false) as ->.
  { rewrite Hflag. destruct (last (PyStr.split "010" output)) as [l|] eqn:El; [|done].
    by apply Hlast. }
  unfold parse_line. by destruct (PyStr.startswith "# makefile" line).
Qed.

Lemma rstrip_cons c s :
  PyStr.rstrip (String c s)
  = match PyStr.rstrip s with
    | EmptyString => if PyStr.isspace c then EmptyString else String c EmptyString
    | r => String c r
    end.
Proof. reflexivity. Qed.

Lemma rstrip_idem s : PyStr.rstrip (PyStr.rstrip s) = PyStr.rstrip s.
Proof.
  induction s as [|c s IH]; [done|]. rewrite rstrip_cons.
  destruct (PyStr.rstrip s) as [|d r] eqn:E.
  - destruct (PyStr.isspace c) eqn:Ec; [done|]. rewrite rstrip_cons. by rewrite Ec.
  - rewrite rstrip_cons. by rewrite IH.
Qed.

(** What [lstrip] returns is empty or starts with a character that is not
    white space, and [rstrip] keeps that character. *)
Lemma lstrip_rstrip_lstrip s :
  PyStr.lstrip (PyStr.rstrip (PyStr.lstrip s)) = PyStr.rstrip (PyStr.lstrip s).
Proof.
  induction s as [|c s IH]; [done|]. cbn [PyStr.lstrip].
  destruct (PyStr.isspace c) eqn:Ec; [exact IH|].
  rewrite rstrip_cons.
  destruct (PyStr.rstrip s); rewrite ?Ec; cbn [PyStr.lstrip]; by rewrite Ec.
Qed.

Lemma strip_idem s : PyStr.strip (PyStr.strip s) = PyStr.strip s.
Proof. unfold PyStr.strip. by rewrite lstrip_rstrip_lstrip, rstrip_idem. Qed.

Lemma span_nonspace_fst s : PyStr.mem_char " " (fst (span_nonspace s)) = false.
Proof.
  induction s as [|c s IH]; [done|]. cbn [span_nonspace].
  destruct (Ascii.eqb c " ") eqn:E; [done|].
  destruct (span_nonspace s) as [a b]. cbn [fst PyStr.mem_char] in *.
  by rewrite Ascii.eqb_sym, E, IH.
Qed.

Lemma re_match_assignment_name line var val :
  re_match_assignment line = Some (var, val) →
  var ≠ EmptyString ∧ PyStr.mem_char " " var = false.
Proof.
  unfold re_match_assignment. pose proof (span_nonspace_fst line) as Hsp.
  destruct (span_nonspace line) as [a rest]. cbn [fst] in Hsp.
  destruct a as [|c a]; [done|]. cbn [PyStr.is_empty].
  destruct (after_assign rest) as [r|]; [|done].
  destruct (PyStr.is_empty (upto_newline r)); [done|].
  by intros [= <- <-].
Qed.

(** A property of names and values that every captured line has holds of
    the whole mapping. *)
Lemma parse_lines_forall (P : string → string → Prop) :
  (∀ line var val, re_match_assignment line = Some (var, val) →
                   P var (PyStr.strip val)) →
  ∀ lines st,
    (∀ k v, snd st !! k = Some v → P k v) →
    ∀ k v, snd (fold_left parse_line lines st) !! k = Some v → P k v.
Proof.
  intros HP. induction lines as [|line lines IH]; intros [flag res] Hst; [done|].
  cbn [fold_left]. apply IH. unfold parse_line.
  destruct (PyStr.startswith "# makefile" line); [done|].
  destruct flag; [|done].
  destruct (re_match_assignment line) as [[var val]|] eqn:Er; [|done].
  destruct (bool_decide (var ∈ BUILT_IN_VARS)); [done|].
  cbn [snd] in *. intros k v. destruct (decide (var = k)) as [<-|Hne].
  - rewrite lookup_insert_eq. intros [= <-]. by eapply HP.
  - rewrite lookup_insert_ne by done. apply Hst.
Qed.

(** X3: in every mapping the resolver returns, a name is not empty and has
    no space, and a value has no white space left at either end. *)
Theorem parse_make_output_names_values output name value :
  parse_make_output output !! name = Some value →
  name ≠ EmptyString
  ∧ PyStr.mem_char " " name = false
  ∧ PyStr.strip value = value.
Proof.
  unfold parse_make_output.
  apply (parse_lines_forall
           (λ k v, k ≠ EmptyString ∧ PyStr.mem_char " " k = false ∧ PyStr.strip v = v)).
  - intros line var val Hr. apply re_match_assignment_name in Hr as [? ?].
    repeat split; [done|done|apply strip_idem].
  - by intros k v.
Qed.

(** ** More on the resolution of variables *)

Section ResolverMore.

Context {ext : Externals}.

(** X4: a call of [get_make_variables] spawns one process, with the fixed
    arguments followed by one [NAME=VALUE] per variable, whether it raises
    or not; it leaves the file system and the environment alone, and prints
    nothing unless [debug] is set. *)
Theorem get_make_variables_frame path makefile expected_failure vars w :
  let w' := snd (get_make_variables path makefile expected_failure vars w) in
  fs w' = fs w
  ∧ environ w' = environ w
  ∧ spawned w'
    = spawned w
      ++ [["make"; "-rpn"; "-C"; path; "-f"; makefile]
          ++ map (λ kv, fst kv +:+ "=" +:+ snd kv) vars]
  ∧ (debug w = false → stdout w' = stdout w).
Proof.
  cbn zeta. rewrite get_make_variables_run. cbn zeta.
  destruct (negb expected_failure && _); cbn [snd fs environ spawned stdout];
    (split; [done|]); (split; [done|]); (split; [done|]);
    intros ->; cbn; by rewrite app_nil_r.
Qed.

Lemma convert_component_no_idf project_path component_path w :
  fs_exists (fs w) (cmakelists_of component_path) = false →
  environ w !! "IDF_PATH" = None →
  convert_component project_path component_path w =
    (inl (KeyError "IDF_PATH"),
     mkWorld (fs w) (environ w) (debug w)
       (stdout w
        ++ (if debug w then ["Converting " +:+ component_path +:+ "..."] else []))
       (spawned w)).
Proof.
  intros He Hidf. unfold convert_component, cmakelists_of in *.
  unfold bind at 1. rewrite when_debug_print_run.
  unfold bind at 1. unfold os_path_exists at 1, gets at 1.
  cbn [fs environ debug stdout spawned]. rewrite He.
  unfold bind at 1. rewrite get_component_variables_run.
  cbn [fs environ debug stdout spawned]. by rewrite Hidf.
Qed.

(** X5: without [IDF_PATH] in the environment, the resolution of a
    component raises [KeyError] before anything is spawned or printed, and
    the conversion of a component that has no descriptor yet raises it with
    nothing spawned and nothing written. *)
Theorem idf_path_missing project_path component_path w :
  environ w !! "IDF_PATH" = None →
  get_component_variables project_path component_path w
  = (inl (KeyError "IDF_PATH"), w)
  ∧ (fs_exists (fs w) (cmakelists_of component_path) = false →
     let r := convert_component project_path component_path w in
     fst r = inl (KeyError "IDF_PATH")
     ∧ fs (snd r) = fs w
     ∧ spawned (snd r) = spawned w).
Proof.
  intros Hidf. split.
  - by rewrite get_component_variables_run, Hidf.
  - intros He. cbn zeta. by rewrite (convert_component_no_idf _ _ _ He Hidf).
Qed.

(** X6: the resolved variables of a component always have the include
    directories, and a source list or a source-directory list: the lookup
    of [COMPONENT_ADD_INCLUDEDIRS] in [convert_component] cannot fail. *)
Theorem resolved_vars_complete project_path component_path w v :
  fst (get_component_variables project_path component_path w) = inr v →
  is_Some (v !! "COMPONENT_ADD_INCLUDEDIRS")
  ∧ (is_Some (v !! "COMPONENT_SRCS") ∨ is_Some (v !! "COMPONENT_SRCDIRS")).
Proof.
  intros (idf & _ & ->)%get_component_variables_inr. split.
  - rewrite derived_includedirs. by eexists.
  - unfold derived_component_vars.
    destruct (_ !! "COMPONENT_OBJS"); [left|right];
      rewrite lookup_insert_ne by done; rewrite lookup_insert_eq; by eexists.
Qed.

(** X7: what [make] printed is carried through: every variable other than
    the three derived ones is unchanged; printed include directories are
    kept; without an object list, the printed source list is kept and
    printed source directories are kept; with an object list, the source
    directories are as printed, not defaulted. *)
Theorem resolved_vars_pass_through project_path component_path w idf_path v :
  environ w !! "IDF_PATH" = Some idf_path →
  fst (get_component_variables project_path component_path w) = inr v →
  let raw := raw_component_vars (fs w) idf_path project_path component_path in
  (∀ k, k ≠ "COMPONENT_SRCS" → k ≠ "COMPONENT_SRCDIRS" →
        k ≠ "COMPONENT_ADD_INCLUDEDIRS" → v !! k = raw !! k)
  ∧ (∀ x, raw !! "COMPONENT_ADD_INCLUDEDIRS" = Some x →
          v !! "COMPONENT_ADD_INCLUDEDIRS" = Some x)
  ∧ (raw !! "COMPONENT_OBJS" = None →
       v !! "COMPONENT_SRCS" = raw !! "COMPONENT_SRCS"
       ∧ v !! "COMPONENT_SRCDIRS"
         = Some (default "." (raw !! "COMPONENT_SRCDIRS")))
  ∧ (is_Some (raw !! "COMPONENT_OBJS") →
       v !! "COMPONENT_SRCDIRS" = raw !! "COMPONENT_SRCDIRS").
Proof.
  intros Hidf (idf & Hidf' & ->)%get_component_variables_inr raw.
  rewrite Hidf in Hidf'. injection Hidf' as <-. fold raw.
  split; [|split; [|split]].
  - intros k H1 H2 H3. unfold derived_component_vars.
    rewrite lookup_insert_ne by done.
    destruct (raw !! "COMPONENT_OBJS"); by rewrite lookup_insert_ne.
  - intros x Hx. by rewrite derived_includedirs, Hx.
  - intros Ho. unfold derived_component_vars. rewrite Ho.
    rewrite !(lookup_insert_ne _ "COMPONENT_ADD_INCLUDEDIRS") by done.
    by rewrite lookup_insert_ne, lookup_insert_eq.
  - intros [objs Ho]. unfold derived_component_vars. rewrite Ho.
    by rewrite !lookup_insert_ne.
Qed.

(** *** The sources derived from the object files *)

Lemma pick_src_Some f component_path obj src :
  pick_src f component_path obj = Some src →
  ∃ ext, ext ∈ ["c"; "cpp"; "S"]
         ∧ src = fst (posixpath.splitext obj) +:+ "." +:+ ext
         ∧ fs_exists f (posixpath.join component_path [fst (posixpath.splitext obj)]
                        +:+ "." +:+ ext) = true.
Proof.
  unfold pick_src.
  destruct (fs_exists f (_ +:+ "." +:+ "c")) eqn:E1.
  { intros [= <-]. exists "c". repeat split; [set_solver|done]. }
  destruct (fs_exists f (_ +:+ "." +:+ "cpp")) eqn:E2.
  { intros [= <-]. exists "cpp". repeat split; [set_solver|done]. }
  destruct (fs_exists f (_ +:+ "." +:+ "S")) eqn:E3; [|done].
  intros [= <-]. exists "S". repeat split; [set_solver|done].
Qed.

(** X8: every source that [collect_srcs] derives comes from an object file
    of the list, is its stem followed by [.c], [.cpp] or [.S], and names a
    path that exists under the component directory. *)
Theorem collected_sources_exist component_path objs w srcs w' src :
  collect_srcs component_path objs w = (inr srcs, w') →
  src ∈ srcs →
  ∃ obj ext,
    obj ∈ objs
    ∧ ext ∈ ["c"; "cpp"; "S"]
    ∧ src = fst (posixpath.splitext obj) +:+ "." +:+ ext
    ∧ fs_exists (fs w)
        (posixpath.join component_path [fst (posixpath.splitext obj)]
         +:+ "." +:+ ext) = true.
Proof.
  rewrite collect_srcs_run. intros [= <- <-] Hin.
  apply list_elem_of_omap in Hin as (obj & Hobj & Hp).
  apply pick_src_Some in Hp as (e & He & -> & Hex). by exists obj, e.
Qed.

Lemma sources_and_warnings f component_path objs :
  length (omap (pick_src f component_path) objs)
  + length (missing_src_warnings f component_path objs)
  = length objs.
Proof.
  unfold missing_src_warnings. induction objs as [|obj objs IH]; [done|].
  cbn [omap list_omap]. destruct (pick_src f component_path obj); cbn [length]; lia.
Qed.

(** X9: [collect_srcs] never fails; each object file gives one source or
    one printed warning, so the sources and the lines printed add up to the
    objects; the sources keep the order of the objects. *)
Theorem collect_srcs_accounts component_path objs w :
  ∃ srcs w',
    collect_srcs component_path objs w = (inr srcs, w')
    ∧ fs w' = fs w
    ∧ (∃ warnings,
         stdout w' = stdout w ++ warnings
         ∧ length srcs + length warnings = length objs)
    ∧ srcs = omap (pick_src (fs w) component_path) objs.
Proof.
  rewrite collect_srcs_run. eexists _, _. split; [reflexivity|].
  cbn [fs stdout]. repeat split.
  eexists. split; [reflexivity|]. apply sources_and_warnings.
Qed.

End ResolverMore.

(** *** Joining the derived sources and splitting them again *)

Lemma mem_char_take c n : ∀ s,
  PyStr.mem_char c s = false → PyStr.mem_char c (PyStr.take n s) = false.
Proof.
  induction n as [|n IH]; intros [|d s]; cbn [PyStr.take PyStr.mem_char]; try done.
  intros [E1 E2]%orb_false_elim. by rewrite E1, IH.
Qed.

Lemma splitext_stem_no_char c p :
  PyStr.mem_char c p = false → PyStr.mem_char c (fst (posixpath.splitext p)) = false.
Proof.
  intros Hp. unfold posixpath.splitext.
  destruct (_ <? _)%Z; [|done].
  destruct (PyStr.all_char "." _); [done|]. by apply mem_char_take.
Qed.

Lemma pick_src_no_space f component_path obj src :
  PyStr.mem_char " " obj = false →
  pick_src f component_path obj = Some src →
  PyStr.mem_char " " src = false.
Proof.
  intros Hobj (e & He & -> & _)%pick_src_Some.
  rewrite mem_char_app, (splitext_stem_no_char _ _ Hobj).
  repeat (apply elem_of_cons in He as [-> | He]; [done|]).
  by apply elem_of_nil in He.
Qed.

(** [sep.join(l).split(sep)] gives [l] back when [l] is not empty and no
    element has the separator. *)
Lemma split_join sep l :
  l ≠ [] → Forall (λ x, PyStr.mem_char sep x = false) l →
  PyStr.split sep (PyStr.join (String sep EmptyString) l) = l.
Proof.
  intros Hne Hl. induction Hl as [|x l Hx Hl IH]; [done|].
  destruct l as [|y l].
  - cbn. by apply split_no_sep_id.
  - change (PyStr.join (String sep EmptyString) (x :: y :: l))
      with (x +:+ String sep (PyStr.join (String sep EmptyString) (y :: l))).
    rewrite split_app_sep, (split_no_sep_id _ _ Hx), IH; done.
Qed.

Section ComponentMore.

Context {ext : Externals}.

(** X10: the source list derived from the object files, joined with spaces
    by [get_component_variables] and split again by [convert_component],
    is the list of the sources found; when none was found, the split gives
    one empty name, not the empty list. *)
Theorem derived_srcs_round_trip project_path component_path w idf_path objs :
  environ w !! "IDF_PATH" = Some idf_path →
  raw_component_vars (fs w) idf_path project_path component_path !! "COMPONENT_OBJS"
    = Some objs →
  ∃ v srcs component_srcs,
    fst (get_component_variables project_path component_path w) = inr v
    ∧ fst (collect_srcs component_path (PyStr.split " " objs) w) = inr srcs
    ∧ v !! "COMPONENT_SRCS" = Some component_srcs
    ∧ PyStr.split " " component_srcs
      = match srcs with [] => [EmptyString] | _ => srcs end.
Proof.
  intros Hidf Hobjs. rewrite get_component_variables_run, Hidf, collect_srcs_run.
  cbn zeta. cbn [fst]. eexists _, _, _. split; [reflexivity|]. split; [reflexivity|].
  split.
  { unfold derived_component_vars. rewrite Hobjs.
    rewrite lookup_insert_ne by done. apply lookup_insert_eq. }
  set (srcs := omap _ _).
  assert (Hsp : Forall (λ x, PyStr.mem_char " " x = false) srcs).
  { apply Forall_forall. intros src (obj & Hin & Hp)%list_elem_of_omap.
    eapply pick_src_no_space; [|exact Hp]. by apply split_no_sep in Hin. }
  clearbody srcs. destruct srcs as [|s l]; [done|]. by apply split_join.
Qed.

(** *** The outcomes of [convert_component] *)

Lemma cmakelists_nonempty dir : PyStr.is_empty (cmakelists_of dir) = false.
Proof.
  unfold cmakelists_of, posixpath.join. cbn [fold_left]. unfold posixpath.join_step.
  change (PyStr.startswith "/" "CMakeLists.txt") with false. cbn match.
  destruct dir as [|c dir]; [done|].
  by destruct (PyStr.is_empty _ || PyStr.endswith_char "/" _).
Qed.

Lemma fs_exists_write f p content :
  PyStr.is_empty p = false → fs_exists (fs_write f p content) p = true.
Proof.
  intros Hp. unfold fs_exists, fs_write, is_file. rewrite Hp.
  cbn [cwd files]. rewrite lookup_insert_eq.
  by rewrite bool_decide_eq_true_2 by by eexists.
Qed.

Lemma get_component_variables_value project_path component_path w idf_path :
  environ w !! "IDF_PATH" = Some idf_path →
  fst (get_component_variables project_path component_path w)
  = inr (derived_component_vars (fs w) component_path
           (raw_component_vars (fs w) idf_path project_path component_path)).
Proof. intros Hidf. by rewrite get_component_variables_run, Hidf. Qed.

(** X11: with [IDF_PATH] set, [convert_component] returns normally exactly
    when the descriptor exists already or can be written; otherwise it
    raises the [IOError] of [open] and the file system is what it was. *)
Theorem convert_component_outcome project_path component_path w idf_path :
  environ w !! "IDF_PATH" = Some idf_path →
  let r := convert_component project_path component_path w in
  (fst r = inr tt
   ↔ fs_exists (fs w) (cmakelists_of component_path) = true
     ∨ fs_writable (fs w) (cmakelists_of component_path) = true)
  ∧ (fst r ≠ inr tt →
     fst r = inl (IOError (cmakelists_of component_path)) ∧ fs (snd r) = fs w).
Proof.
  intros Hidf. cbn zeta.
  destruct (fs_exists (fs w) (cmakelists_of component_path)) eqn:He.
  { rewrite (convert_component_skip _ _ _ He). cbn [fst snd]. split; [|done].
    split; [by left|done]. }
  destruct (convert_component_fresh _ _ _ _ He
              (get_component_variables_value project_path _ _ _ Hidf))
    as (incl & out & out' & sp & _ & ->).
  destruct (fs_writable (fs w) (cmakelists_of component_path)) eqn:Hw; cbn [fst snd].
  - split; [|done]. split; [by right|done].
  - split; [|done]. split; [done|]. by intros [|].
Qed.

(** X12: a second conversion of a component changes nothing: once
    [convert_component] has returned normally, calling it again skips the
    component, with no process spawned and the file system unchanged. *)
Theorem convert_component_idempotent project_path component_path w w1 :
  convert_component project_path component_path w = (inr tt, w1) →
  ∃ w2,
    convert_component project_path component_path w1 = (inr tt, w2)
    ∧ fs w2 = fs w1
    ∧ spawned w2 = spawned w1.
Proof.
  intros E.
  assert (He1 : fs_exists (fs w1) (cmakelists_of component_path) = true).
  { destruct (fs_exists (fs w) (cmakelists_of component_path)) eqn:He.
    - rewrite (convert_component_skip _ _ _ He) in E. by injection E as <-.
    - destruct (environ w !! "IDF_PATH") as [idf|] eqn:Hidf.
      + destruct (convert_component_fresh _ _ _ _ He
                    (get_component_variables_value project_path _ _ _ Hidf))
          as (incl & out & out' & sp & _ & E').
        rewrite E' in E.
        destruct (fs_writable (fs w) (cmakelists_of component_path)); [|done].
        injection E as <-. cbn [fs]. apply fs_exists_write, cmakelists_nonempty.
      + by rewrite (convert_component_no_idf _ _ _ He Hidf) in E. }
  rewrite (convert_component_skip _ _ _ He1). by eexists.
Qed.

(** X13: [convert_component] creates or changes no file other than the
    descriptor of the component, and no directory. *)
Theorem convert_component_one_file project_path component_path w :
  let w' := snd (convert_component project_path component_path w) in
  cwd (fs w') = cwd (fs w)
  ∧ dirs (fs w') = dirs (fs w)
  ∧ ∀ k, k ≠ posixpath.abspath (cwd (fs w)) (cmakelists_of component_path) →
         files (fs w') !! k = files (fs w) !! k.
Proof.
  cbn zeta.
  destruct (fs_exists (fs w) (cmakelists_of component_path)) eqn:He.
  { by rewrite (convert_component_skip _ _ _ He). }
  destruct (environ w !! "IDF_PATH") as [idf|] eqn:Hidf.
  2:{ by rewrite (convert_component_no_idf _ _ _ He Hidf). }
  destruct (convert_component_fresh _ _ _ _ He
              (get_component_variables_value project_path _ _ _ Hidf))
    as (incl & out & out' & sp & _ & ->).
  destruct (fs_writable (fs w) (cmakelists_of component_path)); [|done].
  cbn [snd fs fs_write cwd dirs files]. repeat split.
  intros k Hk. by rewrite lookup_insert_ne.
Qed.

(** X15: the loop over the components has no handler: when a component
    raises, the run ends there, in the world that component left, and no
    later component is visited. *)
Theorem convert_components_abort project_path before component_path after w w0 e w1 :
  for_each (convert_component project_path) before w = (inr tt, w0) →
  convert_component project_path component_path w0 = (inl e, w1) →
  for_each (convert_component project_path) (before ++ component_path :: after) w
  = (inl e, w1).
Proof.
  revert w. induction before as [|c before IH]; intros w Hb Hc.
  - injection Hb as <-. cbn [app for_each]. by rewrite (bind_inl _ _ _ _ _ Hc).
  - cbn [app for_each] in *. apply bind_inv in Hb as ([] & w' & Hc' & Hb).
    rewrite (bind_inr _ _ _ _ _ Hc'). by apply IH.
Qed.

End ComponentMore.

(** ** More on the conversion of a project *)

Lemma normpath_nonempty p : posixpath.normpath p ≠ EmptyString.
Proof.
  unfold posixpath.normpath. destruct (PyStr.is_empty p); [done|].
  destruct (PyStr.is_empty (_ +:+ _)) eqn:E; [done|].
  intros Hp. by rewrite Hp in E.
Qed.

(** X20: the rewriting of an entry source never fails: [normpath] does
    not return the empty path, so [relpath] has no [ValueError] to raise. *)
Theorem entry_source_total cwd project_path main_component_path m :
  is_Some (entry_source cwd project_path main_component_path m).
Proof.
  unfold entry_source, posixpath.relpath.
  rewrite (is_empty_false _ (normpath_nonempty _)).
  by destruct (replicate _ _ ++ drop _ _).
Qed.

Section ProjectMore.

Context {ext : Externals}.

(** X16: a project directory that does not exist, or that has no
    [Makefile], makes [convert_project] raise at once, with the message of
    the first check that fails; nothing is spawned, printed or written. *)
Theorem convert_project_missing_input project_path w :
  (fs_exists (fs w) project_path = false →
   convert_project project_path w
   = (inl (RuntimeError ("Project directory '" +:+ project_path +:+ "' not found")), w))
  ∧ (fs_exists (fs w) project_path = true →
     fs_exists (fs w) (posixpath.join project_path ["Makefile"]) = false →
     convert_project project_path w
     = (inl (RuntimeError ("Directory '" +:+ project_path
                           +:+ "' doesn't contain a project Makefile")), w)).
Proof.
  split.
  - intros H1. unfold convert_project.
    unfold bind at 1. unfold os_path_exists at 1, gets at 1. by rewrite H1.
  - intros H1 H2. unfold convert_project.
    unfold bind at 1. unfold os_path_exists at 1, gets at 1. rewrite H1. cbn [negb].
    unfold bind at 1. unfold os_path_exists at 1, gets at 1. by rewrite H2.
Qed.

(** The run of [convert_project] up to the resolution of the project. *)
Lemma convert_project_resolved project_path w :
  fs_exists (fs w) project_path = true →
  fs_exists (fs w) (posixpath.join project_path ["Makefile"]) = true →
  fs_exists (fs w) (cmakelists_of project_path) = false →
  ∃ k,
    get_make_variables project_path "Makefile" true [] w
    = (inr (raw_project_vars (fs w) project_path),
       mkWorld (fs w) (environ w) (debug w)
         (stdout w ++ make_debug_lines (debug w) (fs w)
                        (make_cmdline project_path "Makefile" []))
         (spawned w ++ [make_cmdline project_path "Makefile" []]))
    ∧ convert_project project_path w
      = bind (get_make_variables project_path "Makefile" true []) k w
    ∧ (∀ vars w1,
         vars !! "PROJECT_NAME" = None →
         k vars w1
         = (inl (RuntimeError
                   ("PROJECT_NAME does not appear to be defined in IDF project Makefile at "
                    +:+ project_path)), w1))
    ∧ (∀ vars w1,
         is_Some (vars !! "PROJECT_NAME") → vars !! "COMPONENT_PATHS" = None →
         k vars w1 = (inl (KeyError "COMPONENT_PATHS"), w1)).
Proof.
  intros H1 H2 H3. eexists. split; [|split; [|split]].
  - by rewrite get_make_variables_run.
  - unfold convert_project, cmakelists_of in *.
    unfold bind at 1. unfold os_path_exists at 1, gets at 1. rewrite H1. cbn [negb].
    unfold bind at 1. unfold os_path_exists at 1, gets at 1. rewrite H2. cbn [negb].
    unfold bind at 1. unfold os_path_exists at 1, gets at 1. rewrite H3.
    reflexivity.
  - intros vars w1 Hn. cbn beta.
    rewrite bool_decide_eq_false_2; [done|]. rewrite Hn. by intros [? ?].
  - intros vars w1 Hn Hc. cbn beta.
    rewrite bool_decide_eq_true_2 by done. cbn [negb].
    unfold bind at 1. unfold dict_index. by rewrite Hc.
Qed.

(** X17: when the project is in place but [make] prints no
    [PROJECT_NAME], [convert_project] raises its [RuntimeError]; with a
    name but no [COMPONENT_PATHS] it raises [KeyError]. In both cases one
    process was spawned, whatever its exit status, and nothing is
    written. *)
Theorem convert_project_unresolved project_path w :
  fs_exists (fs w) project_path = true →
  fs_exists (fs w) (posixpath.join project_path ["Makefile"]) = true →
  fs_exists (fs w) (cmakelists_of project_path) = false →
  let raw := raw_project_vars (fs w) project_path in
  let r := convert_project project_path w in
  (raw !! "PROJECT_NAME" = None →
   fst r = inl (RuntimeError
                  ("PROJECT_NAME does not appear to be defined in IDF project Makefile at "
                   +:+ project_path))
   ∧ fs (snd r) = fs w
   ∧ spawned (snd r) = spawned w ++ [make_cmdline project_path "Makefile" []])
  ∧ (is_Some (raw !! "PROJECT_NAME") → raw !! "COMPONENT_PATHS" = None →
     fst r = inl (KeyError "COMPONENT_PATHS")
     ∧ fs (snd r) = fs w
     ∧ spawned (snd r) = spawned w ++ [make_cmdline project_path "Makefile" []]).
Proof.
  intros H1 H2 H3 raw r.
  destruct (convert_project_resolved _ _ H1 H2 H3) as (k & Hg & Hrun & Hname & Hpaths).
  subst r. rewrite Hrun. unfold bind. rewrite Hg. split.
  - intros Hn. by rewrite (Hname _ _ Hn).
  - intros Hn Hc. by rewrite (Hpaths _ _ Hn Hc).
Qed.

(** X18: a project that was converted is not converted again: after
    [convert_project] has returned normally, a second call raises the
    [RuntimeError] of an existing descriptor and leaves the world as the
    first call left it. *)
Theorem convert_project_idempotent project_path w w' :
  convert_project project_path w = (inr tt, w') →
  ∃ msg, convert_project project_path w' = (inl (RuntimeError msg), w').
Proof.
  intros E. apply convert_project_already.
  apply convert_project_inv in E as (n & cps & p & mv & srcs & rel & f & E).
  destruct E as (_ & _ & _ & _ & _ & _ & _ & ->).
  apply fs_exists_write, cmakelists_nonempty.
Qed.

End ProjectMore.

(** ** The [debug] flag only adds output *)

Lemma debug_blind_ret {A} (a : A) : debug_blind (ret a).
Proof. by intros w w2 Hw. Qed.

Lemma debug_blind_raise {A} e : debug_blind (raise (A := A) e).
Proof. by intros w w2 Hw. Qed.

Lemma debug_blind_print s : debug_blind (print s).
Proof. by intros w w2 (?&?&?). Qed.

Lemma debug_blind_bind {A B} (m : M A) (k : A → M B) :
  debug_blind m → (∀ a, debug_blind (k a)) → debug_blind (bind m k).
Proof.
  intros Hm Hk w w2 Hw. destruct (Hm w w2 Hw) as [Hv Hs]. unfold bind.
  destruct (m w) as [[e|a] w1], (m w2) as [[e2|a2] w3]; cbn [fst snd] in *.
  - injection Hv as <-. by split.
  - discriminate Hv.
  - discriminate Hv.
  - injection Hv as <-. by apply Hk.
Qed.

Lemma debug_blind_gets {A} (f : World → A) :
  (∀ w w2, same_but_debug w w2 → f w = f w2) → debug_blind (gets f).
Proof. intros Hf w w2 Hw. cbn. split; [|done]. f_equal. by apply Hf. Qed.

(** Printing under [debug]: the flag decides whether lines are printed,
    nothing else. *)
Lemma debug_blind_when_debug_print s : debug_blind (when_debug (print s)).
Proof.
  intros w w2 (?&?&?). rewrite !when_debug_print_run. by repeat split.
Qed.

Lemma debug_blind_exists p : debug_blind (os_path_exists p).
Proof. apply debug_blind_gets. intros ?? (E&_&_). by rewrite E. Qed.

Lemma debug_blind_dict_index d k : debug_blind (dict_index d k).
Proof.
  unfold dict_index. destruct (d !! k); [apply debug_blind_ret | apply debug_blind_raise].
Qed.

Lemma debug_blind_open_w p chunks : debug_blind (open_w p chunks).
Proof.
  intros w w2 (Ef&Ee&Es). unfold open_w. rewrite Ef.
  destruct (fs_writable (fs w2) p); cbn [fst snd]; by repeat split.
Qed.

Lemma debug_blind_for_each {A} (f : A → M unit) l :
  (∀ a, debug_blind (f a)) → debug_blind (for_each f l).
Proof.
  intros Hf. induction l as [|x l IH]; cbn [for_each]; [apply debug_blind_ret|].
  apply debug_blind_bind; [apply Hf | intros _; exact IH].
Qed.

Lemma debug_blind_map_M {A B} (f : A → M B) l :
  (∀ a, debug_blind (f a)) → debug_blind (map_M f l).
Proof.
  intros Hf. induction l as [|x l IH]; cbn [map_M]; [apply debug_blind_ret|].
  apply debug_blind_bind; [apply Hf|intros y].
  apply debug_blind_bind; [apply IH|intros ys]. apply debug_blind_ret.
Qed.

Section Debug.

Context {ext : Externals}.

Lemma debug_blind_get_make_variables path makefile ef vars :
  debug_blind (get_make_variables path makefile ef vars).
Proof.
  intros w w2 (Ef&Ee&Es). rewrite !get_make_variables_run. cbn zeta. rewrite Ef.
  destruct (negb ef && _); cbn [fst snd]; repeat split; cbn; congruence.
Qed.

Lemma debug_blind_get_component_variables project_path component_path :
  debug_blind (get_component_variables project_path component_path).
Proof.
  intros w w2 (Ef&Ee&Es). rewrite !get_component_variables_run. rewrite Ef, Ee.
  destruct (environ w2 !! "IDF_PATH"); cbn [fst snd]; repeat split; cbn; congruence.
Qed.

Lemma debug_blind_convert_component project_path component_path :
  debug_blind (convert_component project_path component_path).
Proof.
  unfold convert_component.
  apply debug_blind_bind; [apply debug_blind_when_debug_print|intros _].
  apply debug_blind_bind; [apply debug_blind_exists|intros e].
  destruct e; [apply debug_blind_print|].
  apply debug_blind_bind; [apply debug_blind_get_component_variables|intros v].
  apply debug_blind_bind; [apply debug_blind_gets; by intros ?? (E&_&_)|intros f].
  apply debug_blind_bind; [apply debug_blind_dict_index|intros incl].
  apply debug_blind_bind; [apply debug_blind_open_w|intros _].
  apply debug_blind_print.
Qed.

Lemma debug_blind_find_main project_path component_paths :
  debug_blind (find_main project_path component_paths).
Proof.
  unfold find_main. destruct (filter _ component_paths) as [|p ps].
  - apply debug_blind_bind; [apply debug_blind_print|intros _; apply debug_blind_ret].
  - apply debug_blind_bind; [apply debug_blind_when_debug_print|intros _].
    apply debug_blind_bind; [apply debug_blind_get_component_variables|intros v].
    apply debug_blind_ret.
Qed.

Lemma debug_blind_convert_project project_path :
  debug_blind (convert_project project_path).
Proof.
  unfold convert_project.
  apply debug_blind_bind; [apply debug_blind_exists|intros e1].
  destruct (negb e1); [apply debug_blind_raise|].
  apply debug_blind_bind; [apply debug_blind_exists|intros e2].
  destruct (negb e2); [apply debug_blind_raise|].
  apply debug_blind_bind; [apply debug_blind_exists|intros e3].
  destruct e3; [apply debug_blind_raise|].
  apply debug_blind_bind; [apply debug_blind_get_make_variables|intros project_vars].
  destruct (negb _); [apply debug_blind_raise|].
  apply debug_blind_bind; [apply debug_blind_dict_index|intros cps].
  apply debug_blind_bind; [apply debug_blind_find_main|intros [mp mv]].
  apply debug_blind_bind;
    [apply debug_blind_for_each; intros; apply debug_blind_convert_component|intros _].
  apply debug_blind_bind; [apply debug_blind_dict_index|intros srcs].
  apply debug_blind_bind.
  { apply debug_blind_map_M. intros m.
    destruct mp; [apply debug_blind_ret | apply debug_blind_raise]. }
  intros abs. apply debug_blind_bind.
  { apply debug_blind_map_M. intros m. apply debug_blind_bind.
    - apply debug_blind_gets. intros ?? (E&_&_). by rewrite E.
    - intros c. destruct (posixpath.relpath c m project_path);
        [apply debug_blind_ret | apply debug_blind_raise]. }
  intros rel.
  apply debug_blind_bind; [apply debug_blind_dict_index|intros name].
  apply debug_blind_bind; [apply debug_blind_open_w|intros _].
  apply debug_blind_print.
Qed.

(** X21: [--debug] only adds output: with and without the flag, [main]
    ends the same way (normally, or with the same exception), leaves the
    same file system, and has spawned the same processes. *)
Theorem main_debug_only_prints args_project w :
  let r1 := main true args_project w in
  let r0 := main false args_project w in
  fst r1 = fst r0
  ∧ fs (snd r1) = fs (snd r0)
  ∧ spawned (snd r1) = spawned (snd r0).
Proof.
  cbn zeta. unfold main.
  unfold bind at 1 5. unfold gets at 1 2.
  unfold bind at 1 4. unfold set_debug at 1 2.
  assert (Hb : debug_blind
                 (print ("Converting " +:+ default (cwd (fs w)) args_project +:+ "...")
                  >> convert_project (default (cwd (fs w)) args_project))).
  { apply debug_blind_bind; [apply debug_blind_print|intros _].
    apply debug_blind_convert_project. }
  match goal with
  | |- context [bind _ _ ?a] =>
      match goal with
      | |- fst (_ _ _ ?b) = _ ∧ _ =>
          destruct (Hb b (mkWorld (fs w) (environ w) false (stdout w) (spawned w)))
            as (Hv & Hf & _ & Hs); [by repeat split|]
      end
  end.
  by repeat split.
Qed.

(** X22: a file that exists when [main] starts has the same contents when
    [main] ends, however it ends. *)
Theorem main_keeps_files args_debug args_project w k c :
  files (fs w) !! k = Some c →
  files (fs (snd (main args_debug args_project w))) !! k = Some c.
Proof.
  intros Hk. unfold main.
  unfold bind at 1. unfold gets at 1. unfold bind at 1. unfold set_debug at 1.
  unfold bind at 1. unfold print at 1.
  match goal with
  | |- context [convert_project ?p ?w0] =>
      destruct (convert_project_extends p w0) as (_ & _ & _ & _ & Hx)
  end.
  by apply Hx.
Qed.

End Debug.

(** ** The further properties at concrete inputs *)

Lemma parse_make_output_last_definition_witness :
  parse_make_output
    ("# makefile" +:+ PyStr.nl +:+ "A := a" +:+ PyStr.nl
     +:+ "# makefile (from 'x.mk', line 2)" +:+ PyStr.nl +:+ "A" +:+ " = " +:+ "b ")
  = <["A" := "b"]> (parse_make_output ("# makefile" +:+ PyStr.nl +:+ "A := a")).
Proof.
  apply (parse_make_output_last_definition
           ("# makefile" +:+ PyStr.nl +:+ "A := a")
           "# makefile (from 'x.mk', line 2)" "A" " = " "b ");
    try reflexivity; try discriminate. by right.
Defined.

Lemma parse_make_output_unmarked_line_witness :
  parse_make_output ("# environment" +:+ PyStr.nl +:+ "B := 2")
  = parse_make_output "# environment".
Proof.
  apply (parse_make_output_unmarked_line "# environment" "B := 2").
  - intros l Hl. vm_compute in Hl. injection Hl as <-. reflexivity.
  - reflexivity.
Defined.

Lemma parse_make_output_names_values_witness :
  "A" ≠ EmptyString ∧ PyStr.mem_char " " "A" = false ∧ PyStr.strip "x" = "x".
Proof.
  apply (parse_make_output_names_values ("# makefile" +:+ PyStr.nl +:+ "A =  x") "A" "x").
  vm_compute. reflexivity.
Defined.

Lemma get_make_variables_frame_witness :
  stdout (snd (get_make_variables (ext := Fake.externals Fake.demo_table)
                 "." "Makefile" false [("V", "1")] Fake.demo)) = []
  ∧ spawned (snd (get_make_variables (ext := Fake.externals Fake.demo_table)
                    "." "Makefile" false [("V", "1")] Fake.demo))
    = [["make"; "-rpn"; "-C"; "."; "-f"; "Makefile"; "V=1"]].
Proof.
  destruct (get_make_variables_frame (ext := Fake.externals Fake.demo_table)
              "." "Makefile" false [("V", "1")] Fake.demo) as (_ & _ & Hs & Ho).
  split; [apply Ho; reflexivity | exact Hs].
Defined.

Lemma idf_path_missing_witness :
  fst (convert_component (ext := Fake.externals Fake.demo_table) "." "compA"
         (mkWorld Fake.demo_fs ∅ false [] []))
  = inl (KeyError "IDF_PATH")
  ∧ spawned (snd (convert_component (ext := Fake.externals Fake.demo_table) "." "compA"
                    (mkWorld Fake.demo_fs ∅ false [] []))) = [].
Proof.
  destruct (idf_path_missing (ext := Fake.externals Fake.demo_table) "." "compA"
              (mkWorld Fake.demo_fs ∅ false [] [])) as [_ Hc]; [reflexivity|].
  destruct Hc as (He & _ & Hs); [vm_compute; reflexivity|]. by split.
Defined.

Lemma resolved_vars_complete_witness :
  is_Some (Fake.demo_vars "compB" !! "COMPONENT_ADD_INCLUDEDIRS")
  ∧ (is_Some (Fake.demo_vars "compB" !! "COMPONENT_SRCS")
     ∨ is_Some (Fake.demo_vars "compB" !! "COMPONENT_SRCDIRS")).
Proof.
  apply (resolved_vars_complete (ext := Fake.externals Fake.demo_table)
           "." "compB" Fake.demo).
  vm_compute. reflexivity.
Defined.

Lemma resolved_vars_pass_through_witness :
  Fake.demo_vars "compA" !! "CFLAGS" = Some "-Wall"
  ∧ Fake.demo_vars "compA" !! "COMPONENT_SRCDIRS" = Some ".".
Proof.
  destruct (resolved_vars_pass_through (ext := Fake.externals Fake.demo_table)
              "." "compA" Fake.demo "/idf" (Fake.demo_vars "compA"))
    as (Hk & _ & _ & Hd).
  - reflexivity.
  - vm_compute. reflexivity.
  - split.
    + rewrite Hk by done. vm_compute. reflexivity.
    + rewrite Hd; [vm_compute; reflexivity|]. vm_compute. by eexists.
Defined.

Lemma collected_sources_exist_witness :
  ∃ obj e,
    obj ∈ ["a.o"; "gone.o"; "b.o"]
    ∧ e ∈ ["c"; "cpp"; "S"]
    ∧ "b.cpp" = fst (posixpath.splitext obj) +:+ "." +:+ e
    ∧ fs_exists Fake.demo_fs
        (posixpath.join "compA" [fst (posixpath.splitext obj)] +:+ "." +:+ e) = true.
Proof.
  apply (collected_sources_exist
           "compA" ["a.o"; "gone.o"; "b.o"] Fake.demo ["a.c"; "b.cpp"]
           (snd (collect_srcs "compA" ["a.o"; "gone.o"; "b.o"] Fake.demo)) "b.cpp").
  - vm_compute. reflexivity.
  - set_solver.
Defined.

Lemma derived_srcs_round_trip_witness :
  ∃ component_srcs,
    Fake.demo_vars "compA" !! "COMPONENT_SRCS" = Some component_srcs
    ∧ PyStr.split " " component_srcs = ["a.c"; "b.cpp"].
Proof.
  destruct (derived_srcs_round_trip (ext := Fake.externals Fake.demo_table)
              "." "compA" Fake.demo "/idf" "a.o gone.o b.o")
    as (v & srcs & s & Hv & Hc & Hs & Hsplit).
  - reflexivity.
  - vm_compute. reflexivity.
  - exists s.
    assert (v = Fake.demo_vars "compA") as -> by (vm_compute in Hv; vm_compute; congruence).
    assert (srcs = ["a.c"; "b.cpp"]) as -> by (vm_compute in Hc; congruence).
    by split.
Defined.

Lemma convert_component_outcome_witness :
  fst (convert_component (ext := Fake.externals Fake.demo_table) "." "compA" Fake.demo)
  = inr tt
  ∧ fst (convert_component (ext := Fake.externals Fake.demo_table) "." "ghost" Fake.demo)
    = inl (IOError "ghost/CMakeLists.txt").
Proof.
  split.
  - destruct (convert_component_outcome (ext := Fake.externals Fake.demo_table)
                "." "compA" Fake.demo "/idf") as [Hiff _]; [reflexivity|].
    apply Hiff. right. vm_compute. reflexivity.
  - destruct (convert_component_outcome (ext := Fake.externals Fake.demo_table)
                "." "ghost" Fake.demo "/idf") as [_ Herr]; [reflexivity|].
    apply Herr. vm_compute. discriminate.
Defined.

Lemma convert_component_idempotent_witness :
  ∃ w2,
    convert_component (ext := Fake.externals Fake.demo_table) "." "compA"
      (snd (convert_component (ext := Fake.externals Fake.demo_table)
              "." "compA" Fake.demo))
    = (inr tt, w2)
    ∧ fs w2 = fs (snd (convert_component (ext := Fake.externals Fake.demo_table)
                         "." "compA" Fake.demo))
    ∧ spawned w2 = spawned (snd (convert_component
                                   (ext := Fake.externals Fake.demo_table)
                                   "." "compA" Fake.demo)).
Proof.
  apply (convert_component_idempotent (ext := Fake.externals Fake.demo_table)
           "." "compA" Fake.demo).
  vm_compute. reflexivity.
Defined.

Lemma convert_component_one_file_witness :
  files (fs (snd (convert_component (ext := Fake.externals Fake.demo_table)
                    "." "compA" Fake.demo))) !! "/proj/compB/CMakeLists.txt"
  = None.
Proof.
  destruct (convert_component_one_file (ext := Fake.externals Fake.demo_table)
              "." "compA" Fake.demo) as (_ & _ & Hk).
  rewrite Hk; [reflexivity|]. vm_compute. discriminate.
Defined.

Lemma convert_components_abort_witness :
  ∃ w1,
    for_each (convert_component (ext := Fake.externals Fake.demo_table) ".")
      (["compB"] ++ "ghost" :: ["compA"]) Fake.demo
    = (inl (IOError "ghost/CMakeLists.txt"), w1)
    ∧ fs_read (fs w1) "compA/CMakeLists.txt" = None.
Proof.
  eexists. split.
  - apply (convert_components_abort (ext := Fake.externals Fake.demo_table)
             "." ["compB"] "ghost" ["compA"] Fake.demo
             (snd (for_each (convert_component (ext := Fake.externals Fake.demo_table) ".")
                     ["compB"] Fake.demo))).
    + vm_compute. reflexivity.
    + vm_compute. reflexivity.
  - vm_compute. reflexivity.
Defined.

Lemma convert_project_missing_input_witness :
  (∃ msg, convert_project (ext := Fake.externals Fake.demo_table) "nowhere" Fake.demo
          = (inl (RuntimeError msg), Fake.demo))
  ∧ convert_project (ext := Fake.externals Fake.demo_table) "compA" Fake.demo
    = (inl (RuntimeError "Directory 'compA' doesn't contain a project Makefile"),
       Fake.demo).
Proof.
  destruct (convert_project_missing_input (ext := Fake.externals Fake.demo_table)
              "nowhere" Fake.demo) as [H1 _].
  destruct (convert_project_missing_input (ext := Fake.externals Fake.demo_table)
              "compA" Fake.demo) as [_ H2].
  split.
  - eexists. apply H1. vm_compute. reflexivity.
  - apply H2; vm_compute; reflexivity.
Defined.

Lemma convert_project_unresolved_witness :
  fst (convert_project (ext := Fake.externals []) "." Fake.demo)
  = inl (RuntimeError
           "PROJECT_NAME does not appear to be defined in IDF project Makefile at .")
  ∧ fst (convert_project
           (ext := Fake.externals
                     [(".", (0%Z, "# makefile" +:+ PyStr.nl +:+ "PROJECT_NAME := demo"))])
           "." Fake.demo)
    = inl (KeyError "COMPONENT_PATHS").
Proof.
  split.
  - refine (proj1 (proj1 (convert_project_unresolved (ext := Fake.externals [])
                            "." Fake.demo _ _ _) _));
      vm_compute; reflexivity.
  - refine (proj1 (proj2 (convert_project_unresolved
                            (ext := Fake.externals
                                      [(".", (0%Z, "# makefile" +:+ PyStr.nl
                                                   +:+ "PROJECT_NAME := demo"))])
                            "." Fake.demo _ _ _) _ _));
      vm_compute; by eauto.
Defined.

Lemma convert_project_idempotent_witness :
  ∃ msg,
    convert_project (ext := Fake.externals Fake.demo_table) "."
      (snd (convert_project (ext := Fake.externals Fake.demo_table) "." Fake.demo))
    = (inl (RuntimeError msg),
       snd (convert_project (ext := Fake.externals Fake.demo_table) "." Fake.demo)).
Proof.
  apply (convert_project_idempotent (ext := Fake.externals Fake.demo_table)
           "." Fake.demo).
  vm_compute. reflexivity.
Defined.

Lemma convert_project_no_main_fails_witness :
  ∃ e, fst (convert_project (ext := Fake.externals Fake.nomain_table) "." Fake.demo)
       = inl e.
Proof.
  apply (convert_project_no_main_fails (ext := Fake.externals Fake.nomain_table)
           "." Fake.demo "compB").
  - vm_compute. reflexivity.
  - vm_compute. reflexivity.
Defined.

Lemma main_keeps_files_witness :
  files (fs (snd (main (ext := Fake.externals Fake.demo_table) true None Fake.demo)))
    !! "/proj/Makefile"
  = Some "PROJECT_NAME := demo".
Proof.
  apply (main_keeps_files (ext := Fake.externals Fake.demo_table) true None Fake.demo).
  vm_compute. reflexivity.
Defined.
